(** * Kinect contact import: a shallow embedding of [scripts/import-contacts.py]

    The development follows the class [ContactImporter]: the format
    detector, the vCard, CSV and JSON parsers, the three field normalizers
    and the exporter.

    Conventions of the embedding.
    - A Python [str] is a [string]; its characters are the code points
      0..255, so [\d] is exactly [0-9], and [str.isspace], [str.lower]
      are the restrictions of Python's to that range.
    - A value that may be [None] where the code expects a [str] (a cell of
      a [csv.DictReader] row that is shorter than the header) is a [cell].
    - A function that may raise returns a [result]; exceptions are the
      constructors of [exn].
    - Library calls whose result is data for this program
      ([csv.DictReader], [vobject.readComponents], [json.load],
      [json.dump], [datetime.now]) are inputs or section variables.
    - [strptime] and [strftime] are those of CPython on glibc: the year
      is read as four digits and written without leading zeros.
    - [main] is a relation: the ways a run can end, with the exit code and
      the files it leaves. *)

From Stdlib Require Import Ascii String.
From stdpp Require Import base option list gmap strings.

Set Warnings "-register-all,-abstract-large-number,-clear-no-such-hyp".
Open Scope string_scope.

(** ** Exceptions and results *)

Inductive exn :=
  | ValueError (msg : string)
  | AttributeError
  | TypeError
  | ImportError
  | FileNotFoundError
  | JSONDecodeError.

Inductive result (A : Type) :=
  | Ok (a : A)
  | Raise (e : exn).
Arguments Ok {A} a.
Arguments Raise {A} e.

#[global] Instance result_ret : MRet result := fun A a => Ok a.
#[global] Instance result_fmap : FMap result := fun A B f m =>
  match m with
  | Ok a => Ok (f a)
  | Raise e => Raise e
  end.
#[global] Instance result_bind : MBind result := fun A B k m =>
  match m with
  | Ok a => k a
  | Raise e => Raise e
  end.

(** ** Python string operations *)

Definition code (c : ascii) : nat := nat_of_ascii c.

(** [\d], and [str.isdigit], on code points below 256. *)
Definition is_digit (c : ascii) : bool :=
  ((48 <=? code c) && (code c <=? 57))%nat.

(** [str.isspace] (and the regex class [\s]) on code points below 256. *)
Definition is_space (c : ascii) : bool :=
  (((9 <=? code c) && (code c <=? 13))
   || ((28 <=? code c) && (code c <=? 32))
   || (code c =? 133) || (code c =? 160))%nat.

(** [str.lower] on one code point below 256: A-Z and the Latin-1 capitals
    (all of 192..222 but the multiplication sign 215). *)
Definition lower_char (c : ascii) : ascii :=
  let n := code c in
  if (((65 <=? n) && (n <=? 90))
      || ((192 <=? n) && (n <=? 222) && negb (n =? 215)))%nat
  then ascii_of_nat (n + 32) else c.

Fixpoint str_map (f : ascii -> ascii) (s : string) : string :=
  match s with
  | EmptyString => EmptyString
  | String c r => String (f c) (str_map f r)
  end.

Definition lower (s : string) : string := str_map lower_char s.

Fixpoint str_filter (f : ascii -> bool) (s : string) : string :=
  match s with
  | EmptyString => EmptyString
  | String c r => if f c then String c (str_filter f r) else str_filter f r
  end.

Fixpoint str_forall (f : ascii -> bool) (s : string) : bool :=
  match s with
  | EmptyString => true
  | String c r => f c && str_forall f r
  end.

Fixpoint lstrip (s : string) : string :=
  match s with
  | EmptyString => EmptyString
  | String c r => if is_space c then lstrip r else s
  end.

Fixpoint rstrip (s : string) : string :=
  match s with
  | EmptyString => EmptyString
  | String c r =>
      match rstrip r with
      | EmptyString => if is_space c then EmptyString else String c EmptyString
      | r' => String c r'
      end
  end.

(** [s.strip()] *)
Definition strip (s : string) : string := rstrip (lstrip s).

(** [s.startswith(p)] *)
Fixpoint startswith (p s : string) : bool :=
  match p, s with
  | EmptyString, _ => true
  | String a p', String b s' => if decide (a = b) then startswith p' s' else false
  | String _ _, EmptyString => false
  end.

(** [needle in hay] for two strings *)
Fixpoint contains (needle hay : string) : bool :=
  startswith needle hay
  || match hay with
     | EmptyString => false
     | String _ r => contains needle r
     end.

(** [s.count(c)] for a one-character [c] *)
Fixpoint count_char (c : ascii) (s : string) : nat :=
  match s with
  | EmptyString => 0
  | String a r => (if decide (a = c) then 1 else 0) + count_char c r
  end.

(** [s[:n]], which is also what [f.read(n)] returns on a fresh handle *)
Fixpoint str_take (n : nat) (s : string) : string :=
  match n, s with
  | 0, _ => EmptyString
  | S n', String c r => String c (str_take n' r)
  | S _, EmptyString => EmptyString
  end.

(** Truth value of a [str]: [not s] is [is_empty s]. *)
Definition is_empty (s : string) : bool :=
  match s with EmptyString => true | _ => false end.

(** ** Field normalizers *)

(** The character class [[^\d+]] of [re.sub(r'[^\d+]', '', phone)]
    removes what is neither a digit nor a plus sign. *)
Definition phone_char (c : ascii) : bool :=
  is_digit c || bool_decide (c = "+"%char).

Definition _normalize_phone (phone : string) : string :=
  if is_empty phone then ""
  else
    let normalized := str_filter phone_char phone in
    if negb (is_empty normalized) && negb (startswith "+" normalized) then
      if startswith "1" normalized && (String.length normalized =? 11)%nat
      then "+" ++ normalized
      else if (String.length normalized =? 10)%nat
      then "+1" ++ normalized
      else normalized
    else normalized.

Definition _normalize_phone_type (phone_type : string) : string :=
  let phone_type := lower phone_type in
  if contains "mobile" phone_type || contains "cell" phone_type then "mobile"
  else if contains "work" phone_type || contains "business" phone_type then "work"
  else if contains "home" phone_type then "home"
  else "mobile".

(** ** [datetime.strptime] and [strftime], as far as [_parse_date] uses them

    CPython turns a format into a regular expression: a run of white space
    becomes [\s+], a directive becomes its group, anything else stands
    for itself.  The expression is applied with [re.match]; the first match
    in backtracking order is taken, and data left over after it is an error.
    The groups of the directives used by [date_formats] are
      %Y  \d\d\d\d
      %m  1[0-2]|0[1-9]|[1-9]
      %d  3[0-1]|[1-2]\d|0[1-9]|[1-9]| [1-9]
      %H  2[0-3]|[0-1]\d|\d
      %M  [0-5]\d|\d
      %S  6[0-1]|[0-5]\d|\d
      %B  the month names of the C locale, longest first, ignoring case. *)

Inductive item :=
  | Directive (d : ascii)
  | Literal (c : ascii)
  | Spaces
  | Stray.

(** [TimeRE.pattern]: [in_ws] says that the previous character of the
    format was white space, so that a run gives one [Spaces]. *)
Fixpoint pattern_from (in_ws : bool) (fmt : string) : list item :=
  match fmt with
  | EmptyString => []
  | String c r =>
      if is_space c then
        if in_ws then pattern_from true r else Spaces :: pattern_from true r
      else if decide (c = "%"%char) then
        match r with
        | EmptyString => [Stray]
        | String d r' => Directive d :: pattern_from false r'
        end
      else Literal c :: pattern_from false r
  end.

Definition pattern (fmt : string) : list item := pattern_from false fmt.

(** The fields a match fills in, with [_strptime]'s defaults. *)
Record tm := mk_tm {
  tm_year : nat; tm_mon : nat; tm_mday : nat;
  tm_hour : nat; tm_min : nat; tm_sec : nat
}.

Definition tm_default : tm := mk_tm 1900 1 1 0 0 0.

Definition digit_val (c : ascii) : nat := code c - 48.

(** One alternative made of two digit positions, e.g. [1[0-2]]. *)
Definition alt2 (ok : nat -> nat -> bool) (s : string) : list (nat * string) :=
  match s with
  | String a (String b r) =>
      if is_digit a && is_digit b && ok (digit_val a) (digit_val b)
      then [(10 * digit_val a + digit_val b, r)] else []
  | _ => []
  end.

(** One alternative made of one digit position, e.g. [[1-9]]. *)
Definition alt1 (ok : nat -> bool) (s : string) : list (nat * string) :=
  match s with
  | String a r => if is_digit a && ok (digit_val a) then [(digit_val a, r)] else []
  | _ => []
  end.

(** The alternative [ [1-9]] of %d: a blank, then a non-zero digit. *)
Definition alt_blank1 (s : string) : list (nat * string) :=
  match s with
  | String a r => if decide (a = " "%char) then alt1 (fun d => 1 <=? d)%nat r else []
  | _ => []
  end.

Definition re_Y (s : string) : list (nat * string) :=
  match s with
  | String a (String b (String c (String d r))) =>
      if is_digit a && is_digit b && is_digit c && is_digit d
      then [(1000 * digit_val a + 100 * digit_val b + 10 * digit_val c + digit_val d, r)]
      else []
  | _ => []
  end.

Definition re_m (s : string) : list (nat * string) :=
  (alt2 (fun a b => (a =? 1) && (b <=? 2))%nat s
   ++ alt2 (fun a b => (a =? 0) && (1 <=? b))%nat s
   ++ alt1 (fun a => 1 <=? a)%nat s)%list.

Definition re_d (s : string) : list (nat * string) :=
  (alt2 (fun a b => (a =? 3) && (b <=? 1))%nat s
   ++ alt2 (fun a b => (1 <=? a) && (a <=? 2))%nat s
   ++ alt2 (fun a b => (a =? 0) && (1 <=? b))%nat s
   ++ alt1 (fun a => 1 <=? a)%nat s
   ++ alt_blank1 s)%list.

Definition re_H (s : string) : list (nat * string) :=
  (alt2 (fun a b => (a =? 2) && (b <=? 3))%nat s
   ++ alt2 (fun a b => a <=? 1)%nat s
   ++ alt1 (fun _ => true) s)%list.

Definition re_M (s : string) : list (nat * string) :=
  (alt2 (fun a b => a <=? 5)%nat s ++ alt1 (fun _ => true) s)%list.

Definition re_S (s : string) : list (nat * string) :=
  (alt2 (fun a b => (a =? 6) && (b <=? 1))%nat s
   ++ alt2 (fun a b => a <=? 5)%nat s
   ++ alt1 (fun _ => true) s)%list.

Fixpoint str_drop (n : nat) (s : string) : string :=
  match n, s with
  | 0, _ => s
  | S n', String _ r => str_drop n' r
  | S _, EmptyString => EmptyString
  end.

(** [f_month[1:]] of the C locale with the month numbers, in the order of
    [__seqToRE] (sorted by length, longest first; the sort is stable). *)
Definition month_names : list (string * nat) :=
  [ ("september", 9); ("february", 2); ("november", 11); ("december", 12);
    ("january", 1); ("october", 10); ("august", 8); ("march", 3);
    ("april", 4); ("june", 6); ("july", 7); ("may", 5) ].

Definition re_B (s : string) : list (nat * string) :=
  flat_map (fun '(nm, k) =>
    if startswith nm (lower s) then [(k, str_drop (String.length nm) s)] else [])
    month_names.

(** [\s+], greedy: the longest run of white space first. *)
Fixpoint re_spaces (s : string) : list string :=
  match s with
  | String c r => if is_space c then (re_spaces r ++ [r])%list else []
  | EmptyString => []
  end.

(** The matches of one item after a partial match [(t, s)], in
    backtracking order; [None] when the item has no regular expression
    (a directive [date_formats] does not use, or a stray [%]). *)
Definition match_item (it : item) (ts : tm * string) : option (list (tm * string)) :=
  let '(t, s) := ts in
  let set (f : nat -> tm) (l : list (nat * string)) := Some (map (fun '(v, r) => (f v, r)) l) in
  match it with
  | Literal c =>
      match s with
      | String a r => if decide (a = c) then Some [(t, r)] else Some []
      | EmptyString => Some []
      end
  | Spaces => Some (map (fun r => (t, r)) (re_spaces s))
  | Stray => None
  | Directive d =>
      if decide (d = "Y"%char) then set (fun v => mk_tm v (tm_mon t) (tm_mday t) (tm_hour t) (tm_min t) (tm_sec t)) (re_Y s)
      else if decide (d = "m"%char) then set (fun v => mk_tm (tm_year t) v (tm_mday t) (tm_hour t) (tm_min t) (tm_sec t)) (re_m s)
      else if decide (d = "B"%char) then set (fun v => mk_tm (tm_year t) v (tm_mday t) (tm_hour t) (tm_min t) (tm_sec t)) (re_B s)
      else if decide (d = "d"%char) then set (fun v => mk_tm (tm_year t) (tm_mon t) v (tm_hour t) (tm_min t) (tm_sec t)) (re_d s)
      else if decide (d = "H"%char) then set (fun v => mk_tm (tm_year t) (tm_mon t) (tm_mday t) v (tm_min t) (tm_sec t)) (re_H s)
      else if decide (d = "M"%char) then set (fun v => mk_tm (tm_year t) (tm_mon t) (tm_mday t) (tm_hour t) v (tm_sec t)) (re_M s)
      else if decide (d = "S"%char) then set (fun v => mk_tm (tm_year t) (tm_mon t) (tm_mday t) (tm_hour t) (tm_min t) v) (re_S s)
      else None
  end.

(** All matches of a pattern, in backtracking order. *)
Fixpoint match_items (its : list item) (cur : list (tm * string)) : option (list (tm * string)) :=
  match its with
  | [] => Some cur
  | it :: rest =>
      next ← mapM (match_item it) cur;
      match_items rest (concat next)
  end.

Definition is_leap (y : nat) : bool :=
  ((y mod 4 =? 0) && (negb (y mod 100 =? 0) || (y mod 400 =? 0)))%nat.

Definition days_in_month (y m : nat) : nat :=
  match m with
  | 2 => if is_leap y then 29 else 28
  | 4 | 6 | 9 | 11 => 30
  | _ => 31
  end.

(** What the [datetime] constructor accepts. *)
Definition valid_datetime (t : tm) : bool :=
  ((1 <=? tm_year t) && (tm_year t <=? 9999)
   && (1 <=? tm_mon t) && (tm_mon t <=? 12)
   && (1 <=? tm_mday t) && (tm_mday t <=? days_in_month (tm_year t) (tm_mon t))
   && (tm_hour t <=? 23) && (tm_min t <=? 59) && (tm_sec t <=? 59))%nat.

(** [datetime.strptime(data, fmt)]; [None] is [ValueError], the only
    exception it raises on two strings. *)
Definition strptime (data fmt : string) : option tm :=
  ms ← match_items (pattern fmt) [(tm_default, data)];
  match ms with
  | [] => None
  | (t, rest) :: _ =>
      if is_empty rest then (if valid_datetime t then Some t else None) else None
  end.

Definition digit_char (d : nat) : ascii := ascii_of_nat (48 + d).

Definition fmt2 (n : nat) : string :=
  String (digit_char (n / 10 mod 10)) (String (digit_char (n mod 10)) EmptyString).

Definition fmt4 (n : nat) : string :=
  String (digit_char (n / 1000 mod 10)) (String (digit_char (n / 100 mod 10)) (fmt2 n)).

(** Leading zeros taken off a number, its last digit kept. *)
Fixpoint drop_zeros (s : string) : string :=
  match s with
  | EmptyString => s
  | String c r =>
      match r with
      | EmptyString => s
      | String _ _ => if decide (c = "0"%char) then drop_zeros r else s
      end
  end.

(** [%Y] of [strftime], which CPython hands to the C library: glibc
    writes the year as a plain decimal number, without leading zeros, so
    the year 999 is [999] and the year 1 is [1].  The year of a [datetime]
    is between 1 and 9999. *)
Definition fmt_year (y : nat) : string := drop_zeros (fmt4 y).

(** [dt.strftime('%Y-%m-%d')]: [%m] and [%d] are two digits each. *)
Definition strftime_ymd (t : tm) : string :=
  fmt_year (tm_year t) ++ "-" ++ fmt2 (tm_mon t) ++ "-" ++ fmt2 (tm_mday t).

(** A value that is a [str] or [None]. *)
Inductive cell :=
  | CNone
  | CStr (s : string).

(** Truth value: [None] and the empty string are false. *)
Definition truthy (c : cell) : bool :=
  match c with
  | CNone => false
  | CStr s => negb (is_empty s)
  end.

Definition date_formats : list string :=
  [ "%Y-%m-%d"; "%m/%d/%Y"; "%d/%m/%Y"; "%Y/%m/%d";
    "%B %d, %Y"; "%d %B %Y"; "%Y-%m-%d %H:%M:%S" ].

(** The loop of [_parse_date]: [except ValueError: continue]. *)
Fixpoint try_formats (fmts : list string) (data : string) : option string :=
  match fmts with
  | [] => None
  | fmt :: rest =>
      match strptime data fmt with
      | Some dt => Some (strftime_ymd dt)
      | None => try_formats rest data
      end
  end.

Definition _parse_date (date_str : cell) : option string :=
  match date_str with
  | CNone => None
  | CStr s => if is_empty s then None else try_formats date_formats (strip s)
  end.

(** ** The canonical contact record *)

Record phone_entry := mk_phone {
  type : string;
  number : string;
  primary : bool
}.

Record contact := mk_contact {
  name : cell;
  phones : list phone_entry;
  emails : list string;
  birthday : option string;
  category : string;
  lastContact : option string;
  notes : cell
}.

(** ** CSV rows

    A row of [csv.DictReader] maps the header's names to the cells of the
    line; a line shorter than the header leaves [None] in the cells it
    lacks. *)

Abbreviation row := (gmap string cell).

(** [row.get(key, default)] *)
Definition row_get (r : row) (key : string) (dflt : cell) : cell :=
  default dflt (r !! key).

(** A [str] method called on a cell: [None] has no such attribute. *)
Definition as_str (c : cell) : result string :=
  match c with
  | CStr s => Ok s
  | CNone => Raise AttributeError
  end.

(** A cell inside an f-string. *)
Definition format_cell (c : cell) : string :=
  match c with
  | CStr s => s
  | CNone => "None"
  end.

(** [for x in l: acc = body(acc, x)], stopping at the first exception. *)
Fixpoint for_each {A B : Type} (body : B -> A -> result B) (l : list A) (acc : B) : result B :=
  match l with
  | [] => Ok acc
  | x :: rest => acc' ← body acc x; for_each body rest acc'
  end.

(** [str(i)] for the loop indices, which are below ten. *)
Definition index_str (i : nat) : string := String (digit_char i) EmptyString.

Definition google_phone_step (r : row) (phones : list phone_entry) (i : nat)
  : result (list phone_entry) :=
  let phone_key := if (1 <? i)%nat then "Phone " ++ index_str i ++ " - Value" else "Phone 1 - Value" in
  let phone_type_key := if (1 <? i)%nat then "Phone " ++ index_str i ++ " - Type" else "Phone 1 - Type" in
  phone ← strip <$> as_str (row_get r phone_key (CStr ""));
  if negb (is_empty phone) then
    ty ← _normalize_phone_type <$> as_str (row_get r phone_type_key (CStr "Mobile"));
    Ok (phones ++ [mk_phone ty (_normalize_phone phone) (length phones =? 0)%nat])%list
  else Ok phones.

Definition google_email_step (r : row) (emails : list string) (i : nat)
  : result (list string) :=
  let email_key := if (1 <? i)%nat then "E-mail " ++ index_str i ++ " - Value" else "E-mail 1 - Value" in
  email ← strip <$> as_str (row_get r email_key (CStr ""));
  if negb (is_empty email) then Ok (emails ++ [email])%list else Ok emails.

Definition _parse_google_csv_row (r : row) : result contact :=
  let name0 := strip (format_cell (row_get r "Given Name" (CStr "")) ++ " "
                      ++ format_cell (row_get r "Family Name" (CStr ""))) in
  let name := if is_empty name0 then row_get r "Name" (CStr "") else CStr name0 in
  phones ← for_each (google_phone_step r) (seq 1 5) [];
  emails ← for_each (google_email_step r) (seq 1 3) [];
  Ok (mk_contact name phones emails (_parse_date (row_get r "Birthday" (CStr "")))
        "Friend" None (row_get r "Notes" (CStr ""))).

Definition outlook_phone_step (r : row) (phones : list phone_entry) (field : string)
  : result (list phone_entry) :=
  phone ← strip <$> as_str (row_get r field (CStr ""));
  if negb (is_empty phone) then
    Ok (phones ++ [mk_phone (_normalize_phone_type field) (_normalize_phone phone)
                            (length phones =? 0)%nat])%list
  else Ok phones.

Definition _parse_outlook_csv_row (r : row) : result contact :=
  let name0 := strip (format_cell (row_get r "First Name" (CStr "")) ++ " "
                      ++ format_cell (row_get r "Last Name" (CStr ""))) in
  let name := if is_empty name0 then row_get r "Display Name" (CStr "") else CStr name0 in
  phones ← for_each (outlook_phone_step r) ["Mobile Phone"; "Home Phone"; "Business Phone"] [];
  emails ← (if truthy (row_get r "E-mail Address" CNone)
            then e ← strip <$> as_str (row_get r "E-mail Address" (CStr "")); Ok [e]
            else Ok []);
  Ok (mk_contact name phones emails (_parse_date (row_get r "Birthday" (CStr "")))
        "Friend" None (row_get r "Notes" (CStr ""))).

(** [_normalize_phone] is only ever handed a true (so non-empty) cell. *)
Definition normalize_phone_cell (c : cell) : string :=
  match c with
  | CStr s => _normalize_phone s
  | CNone => ""
  end.

Definition _parse_android_csv_row (r : row) : result contact :=
  name ← strip <$> as_str (row_get r "Display Name" (CStr ""));
  phones ← (if truthy (row_get r "Phone" CNone)
            then Ok [mk_phone "mobile" (normalize_phone_cell (row_get r "Phone" (CStr ""))) true]
            else Ok []);
  emails ← (if truthy (row_get r "Email" CNone)
            then e ← strip <$> as_str (row_get r "Email" (CStr "")); Ok [e]
            else Ok []);
  Ok (mk_contact (CStr name) phones emails None "Friend" None (CStr "")).

(** [for field in fields: if row.get(field): x = row[field].strip(); break],
    with [x = ''] before the loop. *)
Fixpoint first_present (r : row) (fields : list string) : string :=
  match fields with
  | [] => ""
  | field :: rest =>
      match row_get r field CNone with
      | CStr s => if is_empty s then first_present r rest else strip s
      | CNone => first_present r rest
      end
  end.

Definition _parse_generic_csv_row (r : row) : result contact :=
  let name := first_present r ["Name"; "Full Name"; "Display Name"; "Contact Name"] in
  name ← (if is_empty name then
            first ← strip <$> as_str (row_get r "First Name" (row_get r "Given Name" (CStr "")));
            last ← strip <$> as_str (row_get r "Last Name" (row_get r "Family Name" (CStr "")));
            Ok (strip (first ++ " " ++ last))
          else Ok name);
  let phone := first_present r ["Phone"; "Mobile"; "Phone Number"; "Mobile Phone"] in
  let email := first_present r ["Email"; "E-mail"; "Email Address"] in
  Ok (mk_contact (CStr name)
        (if negb (is_empty phone) then [mk_phone "mobile" (_normalize_phone phone) true] else [])
        (if negb (is_empty email) then [email] else [])
        None "Friend" None
        (row_get r "Notes" (row_get r "Note" (CStr "")))).

(** The delimiter [_import_csv] settles on, from the first 1024
    characters of the file. *)
Definition csv_delimiter (content : string) : ascii :=
  let sample := str_take 1024 content in
  if (count_char ";" sample <? count_char "," sample)%nat then ","%char else ";"%char.

Section CsvImport.
(** [csv.DictReader(f, delimiter=delimiter)]: the rows of the file. *)
Variable DictReader : string -> ascii -> list row.

Definition parse_csv_row (csv_type : string) (r : row) : result contact :=
  if decide (csv_type = "google_csv") then _parse_google_csv_row r
  else if decide (csv_type = "outlook_csv") then _parse_outlook_csv_row r
  else if decide (csv_type = "android_csv") then _parse_android_csv_row r
  else _parse_generic_csv_row r.

Definition import_csv_step (csv_type : string) (contacts : list contact) (r : row)
  : result (list contact) :=
  c ← parse_csv_row csv_type r;
  if truthy (name c) then Ok (contacts ++ [c])%list else Ok contacts.

(** [content] is the text of the file at [file_path]. *)
Definition _import_csv (content : string) (csv_type : string) : result (list contact) :=
  let delimiter := csv_delimiter content in
  let reader := DictReader content delimiter in
  for_each (import_csv_step csv_type) reader [].
End CsvImport.

(** ** vCard components

    What [vobject.readComponents] yields, as far as [_import_vcard] looks:
    [hasattr(vcard, 'fn')] is [fn] being [Some], [vcard.contents.get('tel',
    [])] is [tel], and [tel.type_param] is the first TYPE parameter of the
    line, a string, when the line has one. *)

Record tel_line := mk_tel {
  tel_value : string;
  type_param : option string
}.

Record vcard := mk_vcard {
  fn : option string;
  n : option (string * string);   (* given, family *)
  tel : list tel_line;
  email : list string;
  bday : option string;
  note : option string
}.

Definition vcard_phone_type (t : tel_line) : string :=
  match type_param t with
  | Some types =>
      if contains "WORK" types then "work"
      else if contains "HOME" types then "home"
      else "mobile"
  | None => "mobile"
  end.

Definition vcard_phone_step (phones : list phone_entry) (t : tel_line) : list phone_entry :=
  (phones ++ [mk_phone (vcard_phone_type t) (_normalize_phone (tel_value t))
                       (length phones =? 0)%nat])%list.

Definition vcard_contact (v : vcard) : contact :=
  let name :=
    match fn v, n v with
    | Some s, _ => s
    | None, Some (given, family) => strip (given ++ " " ++ family)
    | None, None => ""
    end in
  mk_contact (CStr name)
    (fold_left vcard_phone_step (tel v) [])
    (email v)
    (match bday v with Some b => _parse_date (CStr b) | None => None end)
    "Friend" None
    (CStr (match note v with Some s => s | None => "" end)).

Definition import_vcard_step (contacts : list contact) (v : vcard) : list contact :=
  let c := vcard_contact v in
  if truthy (name c) then (contacts ++ [c])%list else contacts.

(** [vobject] says whether the import of the library succeeded; [vcards]
    is [vobject.readComponents] on the text of the file. *)
Definition _import_vcard (vobject : bool) (vcards : list vcard) : result (list contact) :=
  if negb vobject then Raise ImportError
  else Ok (fold_left import_vcard_step vcards []).

(** ** JSON data *)

(** The values [json.load] returns. A [dict] keeps its items in insertion
    order; its keys are distinct. *)
Inductive pyval :=
  | PNone
  | PBool (b : bool)
  | PInt (z : Z)
  | PFloat (repr : string)
  | PStr (s : string)
  | PList (l : list pyval)
  | PDict (items : list (string * pyval)).

(** [d.get(key)] on the items of a [dict] *)
Fixpoint dict_get (key : string) (items : list (string * pyval)) : option pyval :=
  match items with
  | [] => None
  | (k, v) :: rest => if decide (k = key) then Some v else dict_get key rest
  end.

(** [len(v)], which only strings, lists and dicts have. *)
Definition py_len (v : pyval) : result nat :=
  match v with
  | PStr s => Ok (String.length s)
  | PList l => Ok (length l)
  | PDict items => Ok (length items)
  | _ => Raise TypeError
  end.

(** [_import_json] from [data = json.load(f)] on: the choice of the
    contacts, and the message, which takes their length. *)
Definition import_json_data (data : pyval) : result pyval :=
  contacts ← match data with
             | PDict items =>
                 match dict_get "contacts" items with
                 | Some v => Ok v
                 | None => Raise (ValueError "Invalid JSON format")
                 end
             | PList _ => Ok data
             | _ => Raise (ValueError "Invalid JSON format")
             end;
  _ ← py_len contacts;
  Ok contacts.

(** The canonical record as the [dict] the parsers build. *)
Definition cell_to_py (c : cell) : pyval :=
  match c with
  | CNone => PNone
  | CStr s => PStr s
  end.

Definition phone_to_py (p : phone_entry) : pyval :=
  PDict [("type", PStr (type p)); ("number", PStr (number p)); ("primary", PBool (primary p))].

Definition contact_to_py (c : contact) : pyval :=
  PDict [ ("name", cell_to_py (name c));
          ("phones", PList (map phone_to_py (phones c)));
          ("emails", PList (map PStr (emails c)));
          ("birthday", from_option PStr PNone (birthday c));
          ("category", PStr (category c));
          ("lastContact", from_option PStr PNone (lastContact c));
          ("notes", cell_to_py (notes c)) ].

(** [record.get('name')] is true: the record is a [dict] whose name is a
    non-empty value. *)
Definition py_truthy (v : pyval) : bool :=
  match v with
  | PNone => false
  | PBool b => b
  | PInt z => negb (Z.eqb z 0)
  | PFloat _ => true
  | PStr s => negb (is_empty s)
  | PList l => match l with [] => false | _ => true end
  | PDict items => match items with [] => false | _ => true end
  end.

Section JsonFiles.
(** The text of a JSON file, and the two library calls that write and
    read it: [json.dump(v, f, indent=2, ensure_ascii=False)] and
    [json.load(f)], the latter [None] on a [JSONDecodeError]. *)
Context {text : Type}.
Variable json_dump : pyval -> text.
Variable json_load : text -> option pyval.

(** [fs] maps the paths of the files that exist to their text. *)
Definition _import_json (fs : gmap string text) (file_path : string) : result pyval :=
  match fs !! file_path with
  | None => Raise FileNotFoundError
  | Some t =>
      match json_load t with
      | None => Raise JSONDecodeError
      | Some data => import_json_data data
      end
  end.

(** [now] is [datetime.now().isoformat()]. *)
Definition kinect_data (now : string) (contacts : list pyval) : pyval :=
  PDict [ ("version", PStr "1.0"); ("imported_at", PStr now);
          ("contacts", PList contacts) ].

Definition export_kinect_json (now : string) (contacts : list pyval)
    (output_path : string) (fs : gmap string text) : gmap string text :=
  <[output_path := json_dump (kinect_data now contacts)]> fs.
End JsonFiles.

(** ** Format detection *)

Definition newline : ascii := ascii_of_nat 10.

(** [f.readline()] on a fresh text handle: up to and with the first line
    feed ([content] is the text after newline translation). *)
Fixpoint readline (content : string) : string :=
  match content with
  | EmptyString => EmptyString
  | String c r =>
      if decide (c = newline) then String c EmptyString else String c (readline r)
  end.

(** The classification of a header line that is already lower-cased. *)
Definition classify_header (first_line : string) : string :=
  if contains "given name" first_line && contains "family name" first_line then "google_csv"
  else if contains "first name" first_line && contains "last name" first_line then "outlook_csv"
  else if contains "display name" first_line && contains "phone" first_line then "android_csv"
  else "generic_csv".

Definition _detect_csv_format (content : string) : string :=
  let first_line := lower (strip (readline content)) in
  classify_header first_line.

(** [suffix] is [file_path.suffix]; [content] is the text of the file,
    which is opened for a [.csv] only. *)
Definition detect_format (suffix : string) (content : string) : result string :=
  let suffix := lower suffix in
  if decide (suffix = ".vcf") then Ok "vcard"
  else if decide (suffix = ".json") then Ok "json"
  else if decide (suffix = ".csv") then Ok (_detect_csv_format content)
  else Raise (ValueError ("Unsupported file format: " ++ suffix)).

(** ** The entry point *)

(** What [import_file] returns: the records a vCard or CSV parser built,
    or the value the JSON parser found in the file. *)
Inductive imported :=
  | Records (contacts : list contact)
  | Stored (contacts : pyval).

Definition csv_types : list string :=
  ["google_csv"; "outlook_csv"; "android_csv"; "generic_csv"].

Section ImportFile.
(** [vobject]: the library was imported; [readComponents]: its parse of
    the text of a file, which may raise; [DictReader] and [json_load] as
    before. *)
Variable vobject : bool.
Variable readComponents : string -> result (list vcard).
Variable DictReader : string -> ascii -> list row.
Variable json_load : string -> option pyval.

(** [file_path] names an existing file, [suffix] is its [Path.suffix] and
    [content] its text. *)
Definition import_file (file_path suffix content : string)
    (format_hint : option string) : result imported :=
  format_type ← match format_hint with
                | Some h => if is_empty h then detect_format suffix content else Ok h
                | None => detect_format suffix content
                end;
  if decide (format_type = "vcard") then
    if negb vobject then Raise ImportError
    else vcards ← readComponents content;
         Records <$> _import_vcard vobject vcards
  else if decide (format_type = "json") then
    Stored <$> _import_json json_load {[file_path := content]} file_path
  else if bool_decide (format_type ∈ csv_types) then
    Records <$> _import_csv DictReader content format_type
  else Raise (ValueError ("Unknown format: " ++ format_type)).
End ImportFile.

(** ** Predicates of the properties *)

(** The first phone of a record, and no other, is the primary one. *)
Definition primary_first (ps : list phone_entry) : Prop :=
  match ps with
  | [] => True
  | p :: rest => primary p = true /\ Forall (fun q => primary q = false) rest
  end.

(** A record with a name: a string that is not empty. *)
Definition has_name (c : contact) : Prop :=
  exists s, name c = CStr s /\ s <> "".

(** The same for a record as the JSON parser returns it: [v.get('name')]
    is true. *)
Definition py_has_name (v : pyval) : bool :=
  match v with
  | PDict items =>
      match dict_get "name" items with
      | Some nm => py_truthy nm
      | None => false
      end
  | _ => false
  end.

(** The four name columns of a generic row are all empty (or absent). *)
Definition name_columns_empty (r : row) : Prop :=
  Forall (fun f => truthy (row_get r f CNone) = false)
    ["Name"; "Full Name"; "Display Name"; "Contact Name"].

(** Column [a] when the row has it, else column [b] when the row has it,
    else the empty string. *)
Definition column_or_else (r : row) (a b : string) : cell :=
  match r !! a with
  | Some v => v
  | None => match r !! b with Some v => v | None => CStr "" end
  end.

(** The reading of the specification: column [a] or, when that is empty,
    column [b]; and the name it gives to a generic row without a name
    column. *)
Definition column_or_when_empty (r : row) (a b : string) : cell :=
  if truthy (row_get r a CNone) then row_get r a CNone else row_get r b (CStr "").

Definition claimed_generic_name (r : row) : result string :=
  first ← strip <$> as_str (column_or_when_empty r "First Name" "Given Name");
  last ← strip <$> as_str (column_or_when_empty r "Last Name" "Family Name");
  Ok (strip (first ++ " " ++ last)).


(** The shape the specification gives to a normalized number: digits,
    with at most one plus sign, in the leading position. *)
Definition leading_plus_only (s : string) : bool :=
  match s with
  | EmptyString => true
  | String c r => phone_char c && str_forall is_digit r
  end.

(** A needle that trimming cannot cut: it is not empty and neither
    starts nor ends with white space. *)
Definition starts_nonspace (s : string) : bool :=
  match s with
  | EmptyString => false
  | String c _ => negb (is_space c)
  end.

Fixpoint ends_nonspace (s : string) : bool :=
  match s with
  | EmptyString => false
  | String c EmptyString => negb (is_space c)
  | String _ r => ends_nonspace r
  end.

(** The two shapes the JSON parser accepts. *)
Definition is_list (data : pyval) : Prop :=
  match data with PList _ => True | _ => False end.

Definition has_contacts (data : pyval) : Prop :=
  match data with
  | PDict items => is_Some (dict_get "contacts" items)
  | _ => False
  end.

(** ** Sample data *)

Definition sample_contact : contact :=
  mk_contact (CStr "Ada Lovelace")
    [mk_phone "mobile" "+15551234567" true; mk_phone "home" "+442079460958" false]
    ["ada@example.org"] (Some "1815-12-10") "Friend" None (CStr "").

(** Three lines under the header [Name,First Name,Last Name,Phone]; the
    second has no name at all. *)
Definition sample_rows : list row :=
  [ list_to_map [("Name", CStr "Ada Lovelace"); ("First Name", CStr "");
                 ("Last Name", CStr ""); ("Phone", CStr "555-123-4567")];
    list_to_map [("Name", CStr ""); ("First Name", CStr "");
                 ("Last Name", CStr ""); ("Phone", CStr "555 000 1111")];
    list_to_map [("Name", CStr ""); ("First Name", CStr "Grace ");
                 ("Last Name", CStr "Hopper"); ("Phone", CStr "15551234567")] ].

Definition sample_reader (content : string) (delimiter : ascii) : list row :=
  sample_rows.

Definition sample_generic_contacts : list contact :=
  [ mk_contact (CStr "Ada Lovelace") [mk_phone "mobile" "+15551234567" true]
      [] None "Friend" None (CStr "");
    mk_contact (CStr "Grace Hopper") [mk_phone "mobile" "+15551234567" true]
      [] None "Friend" None (CStr "") ].

Definition grace_row : row :=
  list_to_map [("Name", CStr ""); ("First Name", CStr "Grace ");
               ("Last Name", CStr "Hopper"); ("Phone", CStr "15551234567")].

Definition empty_first_name_row : row :=
  list_to_map [("First Name", CStr ""); ("Given Name", CStr "Ann");
               ("Last Name", CStr "Lee")].

Definition sample_vcard : vcard :=
  mk_vcard None (Some ("Ada", "Lovelace"))
    [mk_tel "(555) 123-4567" None; mk_tel "+44 20 7946 0958" (Some "WORK")]
    ["ada@example.org"] (Some "1815-12-10") None.

Definition sample_vcard_contact : contact :=
  mk_contact (CStr "Ada Lovelace")
    [mk_phone "mobile" "+15551234567" true; mk_phone "work" "+442079460958" false]
    ["ada@example.org"] (Some "1815-12-10") "Friend" None (CStr "").

(** A phone entry as the record wants it: one of the three types, and a
    number the normalizer has nothing left to do on. *)
Definition phone_ok (p : phone_entry) : Prop :=
  type p ∈ ["mobile"; "work"; "home"]
  /\ _normalize_phone (number p) = number p.

(** The named records of a list, in their order. *)
Definition named (cs : list contact) : list contact :=
  List.filter (fun c => truthy (name c)) cs.

(** No cell of the row is [None]: the line was as long as the header. *)
Definition row_complete (r : row) : Prop :=
  forall key, r !! key <> Some CNone.

(** A line that ended before its cells: both are [None]. *)
Definition short_android_row : row :=
  list_to_map [("Display Name", CNone); ("Phone", CNone)].

Definition full_android_row : row :=
  list_to_map [("Display Name", CStr "Ada"); ("Phone", CStr "555-123-4567")].

(** ** The command line *)

(** [args] after [parse_args]: the input file, [--format] and [--dry-run]
    ([--output-dir] only shows in the path of the output file). *)
Record cli_args := mk_args {
  arg_file : string;
  arg_format : option string;
  arg_dry_run : bool
}.

(** What [parser.parse_args()] does: it returns the arguments, or prints
    and ends the process itself with an exit code. *)
Inductive parsed :=
  | Parsed (args : cli_args)
  | Exited (code : nat).

(** [not contacts] is false. *)
Definition imported_truthy (i : imported) : bool :=
  match i with
  | Records l => match l with [] => false | _ => true end
  | Stored v => py_truthy v
  end.

(** The value [json.dump] is handed under the key [contacts]: the records
    are the [dict]s the parsers built. *)
Definition imported_value (i : imported) : pyval :=
  match i with
  | Records l => PList (contact_to_py <$> l)
  | Stored v => v
  end.

(** One line of the preview: [contact['name']], [len(contact['phones'])]
    and [len(contact['emails'])] are all defined. *)
Definition preview_record_ok (v : pyval) : bool :=
  match v with
  | PDict items =>
      match dict_get "name" items, dict_get "phones" items, dict_get "emails" items with
      | Some _, Some ph, Some em =>
          match py_len ph, py_len em with
          | Ok _, Ok _ => true
          | _, _ => false
          end
      | _, _, _ => false
      end
  | _ => false
  end.

(** The preview of a dry run goes through: [contacts[:5]] is a sequence
    and each of its items gives a line. *)
Definition preview_ok (i : imported) : bool :=
  match i with
  | Records _ => true
  | Stored (PList l) => forallb preview_record_ok (take 5 l)
  | Stored (PStr s) => is_empty s
  | Stored _ => false
  end.

Section Main.
(** The libraries as in [import_file]; [json_dump v] is the text
    [json.dump] writes for [v] when it gets to the end; [suffix_of] is
    [Path.suffix]; [mkdir_ok] says that the output directory could be
    made; [output_file] is the path under it that carries the time of the
    run, and [now] the time written into the envelope. *)
Variable vobject : bool.
Variable readComponents : string -> result (list vcard).
Variable DictReader : string -> ascii -> list row.
Variable json_load : string -> option pyval.
Variable json_dump : pyval -> string.
Variable suffix_of : string -> string.
Variable mkdir_ok : bool.
Variable output_file : string.
Variable now : string.

(** [export_kinect_json] on what [import_file] returned. *)
Definition export_imported (i : imported) (fs : gmap string string)
  : gmap string string :=
  match imported_value i with
  | PList l => export_kinect_json json_dump now l output_file fs
  | v => <[output_file := json_dump (PDict [ ("version", PStr "1.0");
                                             ("imported_at", PStr now);
                                             ("contacts", v) ])]> fs
  end.

(** The runs of [main]: [main parsed fs code fs'] says that on the files
    [fs] the process can end with exit code [code] and leave the files
    [fs'].  A message that cannot be printed raises like anything else, so
    a run can fail at any of its messages, also after the output file was
    written; the exit code of a failed run is 1, or what the interpreter
    makes of it when it shuts down, but never 0. *)
Inductive main : parsed -> gmap string string -> nat -> gmap string string -> Prop :=
  (** [parse_args] ended the process: 2 on a usage error, 0 on [--help]. *)
  | main_usage code fs :
      main (Exited code) fs code fs
  (** [if not input_file.exists()]: message and [sys.exit(1)]. *)
  | main_missing args fs code :
      fs !! arg_file args = None ->
      code <> 0 ->
      main (Parsed args) fs code fs
  (** Something raised before the output file was opened: making the
      output directory, the import, the preview of a dry run, a message. *)
  | main_raised args fs code :
      code <> 0 ->
      main (Parsed args) fs code fs
  (** [if not contacts]: message and [sys.exit(1)]. *)
  | main_no_contacts args fs content contacts code :
      fs !! arg_file args = Some content ->
      mkdir_ok = true ->
      import_file vobject readComponents DictReader json_load
        (arg_file args) (suffix_of (arg_file args)) content (arg_format args)
        = Ok contacts ->
      imported_truthy contacts = false ->
      code <> 0 ->
      main (Parsed args) fs code fs
  (** A dry run that printed its preview. *)
  | main_dry_run args fs content contacts :
      fs !! arg_file args = Some content ->
      mkdir_ok = true ->
      import_file vobject readComponents DictReader json_load
        (arg_file args) (suffix_of (arg_file args)) content (arg_format args)
        = Ok contacts ->
      imported_truthy contacts = true ->
      arg_dry_run args = true ->
      preview_ok contacts = true ->
      main (Parsed args) fs 0 fs
  (** The output file was opened for writing and then [json.dump] or a
      later message raised: the file holds [partial], whatever was written
      until then. *)
  | main_cut args fs content contacts partial code :
      fs !! arg_file args = Some content ->
      mkdir_ok = true ->
      import_file vobject readComponents DictReader json_load
        (arg_file args) (suffix_of (arg_file args)) content (arg_format args)
        = Ok contacts ->
      imported_truthy contacts = true ->
      arg_dry_run args = false ->
      code <> 0 ->
      main (Parsed args) fs code (<[output_file := partial]> fs)
  (** The export and all messages went through. *)
  | main_done args fs content contacts :
      fs !! arg_file args = Some content ->
      mkdir_ok = true ->
      import_file vobject readComponents DictReader json_load
        (arg_file args) (suffix_of (arg_file args)) content (arg_format args)
        = Ok contacts ->
      imported_truthy contacts = true ->
      arg_dry_run args = false ->
      main (Parsed args) fs 0 (export_imported contacts fs).
End Main.

(** * Properties *)

(** ** The normalizers on the inputs the specification lists *)

Example normalize_phone_10 : _normalize_phone "5551234567" = "+15551234567".
Proof. reflexivity. Qed.

Example normalize_phone_11 : _normalize_phone "15551234567" = "+15551234567".
Proof. reflexivity. Qed.

Example normalize_phone_intl : _normalize_phone "+44 20 7946 0958" = "+442079460958".
Proof. reflexivity. Qed.

Example normalize_phone_type_cases :
  _normalize_phone_type "Business Phone" = "work"
  /\ _normalize_phone_type "Home Phone" = "home"
  /\ _normalize_phone_type "Cell" = "mobile"
  /\ _normalize_phone_type "" = "mobile".
Proof. repeat split; reflexivity. Qed.

(** ** The phone normalizer *)

Lemma str_forall_filter (f : ascii -> bool) (s : string) :
  str_forall f (str_filter f s) = true.
Proof.
  induction s as [|c r IH]; simpl; [done|].
  destruct (f c) eqn:Hc; simpl; [by rewrite Hc|done].
Qed.

Lemma str_filter_fixed (f : ascii -> bool) (s : string) :
  str_forall f s = true -> str_filter f s = s.
Proof.
  induction s as [|c r IH]; simpl; [done|].
  intros [Hc Hr]%andb_true_iff. rewrite Hc. by rewrite IH.
Qed.

Lemma str_forall_app (f : ascii -> bool) (s t : string) :
  str_forall f (s ++ t) = str_forall f s && str_forall f t.
Proof.
  induction s as [|c r IH]; simpl; [done|]. by rewrite IH, andb_assoc.
Qed.

(** The three shapes of a result: the kept characters, alone or behind
    [+] or [+1]. *)
Lemma normalize_phone_shape (phone : string) :
  let kept := str_filter phone_char phone in
  _normalize_phone phone = kept
  \/ _normalize_phone phone = "+" ++ kept
  \/ _normalize_phone phone = "+1" ++ kept.
Proof.
  unfold _normalize_phone. destruct phone as [|c r]; [by left|].
  cbv zeta. cbn [is_empty].
  repeat case_match; auto.
Qed.

(** A string of digits and plus signs on which none of the two country
    code rules fires is returned as it is. *)
Lemma normalize_phone_fixed (s : string) :
  str_forall phone_char s = true ->
  startswith "+" s = true
  \/ (startswith "1" s && (String.length s =? 11)%nat = false
      /\ (String.length s =? 10)%nat = false) ->
  _normalize_phone s = s.
Proof.
  intros Hall Hcase. unfold _normalize_phone.
  destruct s as [|c r]; [done|]. cbn [is_empty].
  rewrite (str_filter_fixed _ _ Hall). cbn [is_empty negb andb].
  destruct Hcase as [Hplus|[H11 H10]].
  - by rewrite Hplus.
  - rewrite H11, H10. by destruct (startswith "+" (String c r)).
Qed.

(** A result is empty, or starts with a plus sign, or is a number of
    kept characters that neither rule applies to. *)
Lemma normalize_phone_settled (s : string) :
  str_forall phone_char (_normalize_phone s) = true
  /\ (_normalize_phone s = ""
      \/ startswith "+" (_normalize_phone s) = true
      \/ (startswith "1" (_normalize_phone s)
            && (String.length (_normalize_phone s) =? 11)%nat = false
          /\ (String.length (_normalize_phone s) =? 10)%nat = false)).
Proof.
  pose proof (str_forall_filter phone_char s) as Hall.
  unfold _normalize_phone.
  destruct s as [|c r]; [by auto|]. cbn [is_empty]. cbv zeta.
  set (k := str_filter phone_char (String c r)) in *.
  destruct (is_empty k) eqn:Hk.
  { destruct k; [by auto|discriminate]. }
  cbn [negb andb].
  destruct (startswith "+" k) eqn:Hplus; cbn [negb]; [by auto|].
  destruct (startswith "1" k && (String.length k =? 11)%nat) eqn:H11.
  { split; [by rewrite str_forall_app, Hall|by auto]. }
  destruct (String.length k =? 10)%nat eqn:H10.
  { split; [by rewrite str_forall_app, Hall|by auto]. }
  auto.
Qed.

(** C3, as stated, fails: a plus sign inside the number is kept where it
    is, so the result of normalizing ["1+2"] is ["1+2"], whose plus sign
    is not in the leading position. *)
Lemma normalize_phone_inner_plus :
  _normalize_phone "1+2" = "1+2"
  /\ leading_plus_only (_normalize_phone "1+2") = false
  /\ ~ (forall s, leading_plus_only (_normalize_phone s) = true).
Proof.
  split; [reflexivity|]. split; [reflexivity|].
  intros H. specialize (H "1+2"). vm_compute in H. discriminate.
Qed.

(** C3, amended: the result of the phone normalizer consists of digits and
    plus signs only, and it is the input's digits and plus signs, all of
    them and in their order (a plus sign is kept wherever it stands), with
    nothing, [+] or [+1] put in front. *)
Theorem normalize_phone_chars (phone : string) :
  str_forall phone_char (_normalize_phone phone) = true
  /\ (_normalize_phone phone = str_filter phone_char phone
      \/ _normalize_phone phone = "+" ++ str_filter phone_char phone
      \/ _normalize_phone phone = "+1" ++ str_filter phone_char phone).
Proof.
  split; [|apply normalize_phone_shape].
  destruct (normalize_phone_shape phone) as [-> | [-> | ->]];
    rewrite ?str_forall_app, str_forall_filter; reflexivity.
Qed.

(** C4: the phone normalizer is idempotent. *)
Theorem normalize_phone_idempotent (s : string) :
  _normalize_phone (_normalize_phone s) = _normalize_phone s.
Proof.
  destruct (normalize_phone_settled s) as [Hall [-> | Hcase]]; [reflexivity|].
  by apply normalize_phone_fixed.
Qed.

(** ** Delimiter sniffing *)

(** C10: the comma is chosen only when the sample, the first 1024
    characters, has strictly more commas than semicolons; on a tie, and so
    when the sample has neither, the semicolon is chosen; and this is the
    delimiter the rows are read with. *)
Theorem csv_delimiter_choice (content : string) :
  let sample := str_take 1024 content in
  (csv_delimiter content = ","%char
     <-> count_char ";" sample < count_char "," sample)
  /\ (count_char "," sample <= count_char ";" sample
      -> csv_delimiter content = ";"%char)
  /\ (count_char "," sample = 0 -> count_char ";" sample = 0
      -> csv_delimiter content = ";"%char)
  /\ (forall (DictReader : string -> ascii -> list row) (csv_type : string),
        _import_csv DictReader content csv_type
        = for_each (import_csv_step csv_type)
            (DictReader content (csv_delimiter content)) []).
Proof.
  cbv zeta. split; [|split; [|split; [|reflexivity]]];
    unfold csv_delimiter; cbv zeta;
    destruct (Nat.ltb_spec (count_char ";" (str_take 1024 content))
                           (count_char "," (str_take 1024 content))) as [Hlt|Hge];
    try tauto; try lia.
  split; [discriminate|lia].
Qed.

Example csv_delimiter_examples :
  csv_delimiter "Name,Phone" = ","%char
  /\ csv_delimiter "Name;Phone" = ";"%char
  /\ csv_delimiter "a,b;c" = ";"%char
  /\ csv_delimiter "Name" = ";"%char.
Proof. repeat split; reflexivity. Qed.

(** ** Format detection *)

Lemma is_space_lower_char (c : ascii) : is_space (lower_char c) = is_space c.
Proof. destruct c as [[] [] [] [] [] [] [] []]; reflexivity. Qed.

Lemma lower_lstrip (s : string) : lower (lstrip s) = lstrip (lower s).
Proof.
  induction s as [|c r IH]; [done|]. cbn [lstrip lower str_map].
  rewrite is_space_lower_char. by destruct (is_space c).
Qed.

Lemma lower_rstrip (s : string) : lower (rstrip s) = rstrip (lower s).
Proof.
  induction s as [|c r IH]; [done|]. cbn [rstrip lower str_map].
  fold (lower r). rewrite <- IH, is_space_lower_char.
  destruct (rstrip r); cbn [lower str_map]; [by destruct (is_space c)|done].
Qed.

Lemma lower_strip (s : string) : lower (strip s) = strip (lower s).
Proof. unfold strip. by rewrite lower_rstrip, lower_lstrip. Qed.

Lemma contains_lstrip (needle s : string) :
  starts_nonspace needle = true -> contains needle (lstrip s) = contains needle s.
Proof.
  intros Hn. induction s as [|c r IH]; [done|]. cbn [lstrip].
  destruct (is_space c) eqn:Hc; [|done].
  rewrite IH. destruct needle as [|a needle']; [done|].
  cbn [contains startswith]. cbn in Hn.
  destruct (decide (a = c)) as [->|]; [by rewrite Hc in Hn|done].
Qed.

Lemma startswith_cons (a b : ascii) (p s : string) :
  startswith (String a p) (String b s)
  = if decide (a = b) then startswith p s else false.
Proof. reflexivity. Qed.

Lemma startswith_rstrip (needle s : string) :
  ends_nonspace needle = true -> startswith needle (rstrip s) = startswith needle s.
Proof.
  revert needle. induction s as [|c r IH]; intros needle Hn; [done|].
  destruct needle as [|a needle']; [done|].
  rewrite startswith_cons. cbn [rstrip].
  destruct needle' as [|b needle''].
  - cbn in Hn. destruct (rstrip r); [|by cbn].
    destruct (is_space c) eqn:Hc; cbn.
    + destruct (decide (a = c)) as [->|]; [by rewrite Hc in Hn|done].
    + by destruct (decide (a = c)).
  - specialize (IH (String b needle'') Hn). rewrite <- IH.
    destruct (rstrip r) eqn:HR.
    + destruct (is_space c); [by destruct (decide (a = c))|].
      rewrite startswith_cons. by destruct (decide (a = c)).
    + by rewrite startswith_cons.
Qed.

Lemma contains_rstrip (needle s : string) :
  ends_nonspace needle = true -> contains needle (rstrip s) = contains needle s.
Proof.
  intros Hn. induction s as [|c r IH]; [done|].
  cbn [contains]. rewrite <- (startswith_rstrip needle (String c r) Hn), <- IH.
  cbn [rstrip]. destruct (rstrip r) eqn:HR.
  - destruct needle; [done|]. destruct (is_space c); cbn; [done|].
    by rewrite orb_false_r.
  - done.
Qed.

Lemma contains_strip (needle s : string) :
  starts_nonspace needle = true -> ends_nonspace needle = true ->
  contains needle (strip s) = contains needle s.
Proof.
  intros H1 H2. unfold strip. by rewrite contains_rstrip, contains_lstrip.
Qed.

Lemma classify_header_strip (s : string) :
  classify_header (strip s) = classify_header s.
Proof. unfold classify_header. by rewrite !contains_strip. Qed.

Example detect_format_extensions :
  detect_format ".vcf" "" = Ok "vcard"
  /\ detect_format ".JSON" "" = Ok "json"
  /\ detect_format ".txt" "" = Raise (ValueError "Unsupported file format: .txt").
Proof. repeat split; reflexivity. Qed.

(** C5: for a file whose extension is [.csv], detection looks at the first
    line only, lower-cased (trimming it first changes nothing), and
    classifies it in strict priority order: google_csv, else outlook_csv,
    else android_csv, else generic_csv. *)
Theorem detect_format_csv (suffix content : string) :
  lower suffix = ".csv" ->
  let header := lower (readline content) in
  let has := fun needle => contains needle header = true in
  detect_format suffix content = Ok (classify_header header)
  /\ (has "given name" /\ has "family name" ->
      classify_header header = "google_csv")
  /\ (~ (has "given name" /\ has "family name") ->
      has "first name" /\ has "last name" ->
      classify_header header = "outlook_csv")
  /\ (~ (has "given name" /\ has "family name") ->
      ~ (has "first name" /\ has "last name") ->
      has "display name" /\ has "phone" ->
      classify_header header = "android_csv")
  /\ (~ (has "given name" /\ has "family name") ->
      ~ (has "first name" /\ has "last name") ->
      ~ (has "display name" /\ has "phone") ->
      classify_header header = "generic_csv")
  /\ (forall content', readline content' = readline content ->
      detect_format suffix content' = detect_format suffix content).
Proof.
  intros Hcsv header has.
  assert (Hdet : forall c, detect_format suffix c
                           = Ok (classify_header (lower (readline c)))).
  { intros c. unfold detect_format. rewrite Hcsv.
    repeat (case_decide; [discriminate|]). case_decide; [|done].
    unfold _detect_csv_format. by rewrite lower_strip, classify_header_strip. }
  split; [apply Hdet|].
  unfold classify_header, has.
  destruct (contains "given name" header), (contains "family name" header),
    (contains "first name" header), (contains "last name" header),
    (contains "display name" header), (contains "phone" header);
    cbn [andb]; repeat split; try done;
    try (intros c Hc; by rewrite !Hdet, Hc);
    intuition discriminate.
Qed.

Lemma detect_format_csv_witness :
  lower ".CSV" = ".csv"
  /\ detect_format ".CSV"
       ("Given Name,Family Name,Phone 1 - Value" ++ String newline "Ada,Lovelace,555")
     = Ok "google_csv".
Proof.
  split; [reflexivity|].
  destruct (detect_format_csv ".CSV"
              ("Given Name,Family Name,Phone 1 - Value" ++ String newline "Ada,Lovelace,555")
              eq_refl) as [H _].
  rewrite H. reflexivity.
Defined.

Example detect_csv_priority :
  _detect_csv_format "Given Name,Family Name,First Name,Last Name" = "google_csv"
  /\ _detect_csv_format "First Name;Last Name;Display Name;Phone" = "outlook_csv"
  /\ _detect_csv_format "DISPLAY NAME,PHONE" = "android_csv"
  /\ _detect_csv_format "Name,Phone" = "generic_csv"
  /\ _detect_csv_format ("Name,Phone" ++ String newline "given name,family name") = "generic_csv".
Proof. repeat split; reflexivity. Qed.

(** ** The date normalizer *)


Lemma try_formats_hit (fmt : string) (rest : list string) (data : string) (dt : tm) :
  strptime data fmt = Some dt ->
  try_formats (fmt :: rest) data = Some (strftime_ymd dt).
Proof.
  intros H.
  change (match strptime data fmt with
          | Some dt => Some (strftime_ymd dt)
          | None => try_formats rest data
          end = Some (strftime_ymd dt)).
  by rewrite H.
Qed.



Lemma strptime_valid (data fmt : string) (t : tm) :
  strptime data fmt = Some t -> valid_datetime t = true.
Proof.
  unfold strptime. destruct (match_items (pattern fmt) [(tm_default, data)]) as [ms|];
    cbn; [|discriminate].
  destruct ms as [|[t' rest] ms]; [discriminate|].
  destruct (is_empty rest); [|discriminate].
  destruct (valid_datetime t') eqn:Hv; [|discriminate]. by intros [= <-].
Qed.

Lemma digit_char_facts (k : nat) :
  k < 10 ->
  is_digit (digit_char k) = true /\ digit_val (digit_char k) = k
  /\ is_space (digit_char k) = false.
Proof.
  intros Hk. do 10 (destruct k as [|k]; [by repeat split|]). lia.
Qed.



Lemma append_String (c : ascii) (s r : string) :
  String c s ++ r = String c (s ++ r).
Proof. reflexivity. Qed.

Lemma append_empty (r : string) : "" ++ r = r.
Proof. reflexivity. Qed.

Lemma year_bound (y : nat) : (y <=? 9999)%nat = true -> y < 10 * 1000.
Proof.
  intros H%Nat.leb_le.
  change 9999 with (9 * 1000 + 999) in H. lia.
Qed.






Example parse_date_more :
  _parse_date (CStr " March 5, 2021 ") = Some "2021-03-05"
  /\ _parse_date (CStr "5 march 2021") = Some "2021-03-05"
  /\ _parse_date (CStr "2024/2/9") = Some "2024-02-09"
  /\ _parse_date (CStr "2024-02-29 10:11:12") = Some "2024-02-29"
  /\ _parse_date (CStr "2023-02-29") = None
  /\ _parse_date (CStr "2024-03-15x") = None.
Proof. repeat split; vm_compute; reflexivity. Qed.

Example parse_date_small_years :
  _parse_date (CStr "0999-12-31") = Some "999-12-31"
  /\ _parse_date (CStr "999-12-31") = None
  /\ _parse_date (CStr "January 5, 0042") = Some "42-01-05".
Proof. repeat split; vm_compute; reflexivity. Qed.

(** ** The JSON parser *)

(** C7, as stated, fails: an object whose [contacts] key holds a value
    without a length (here the number 5) is of the second shape, but its
    value is not returned: taking [len(contacts)] for the message raises
    [TypeError]. *)
Lemma import_json_contacts_number :
  has_contacts (PDict [("contacts", PInt 5)])
  /\ import_json_data (PDict [("contacts", PInt 5)]) = Raise TypeError
  /\ ~ (forall items v, dict_get "contacts" items = Some v ->
          import_json_data (PDict items) = Ok v).
Proof.
  split; [by eexists|]. split; [reflexivity|].
  intros H. specialize (H [("contacts", PInt 5)] (PInt 5) eq_refl). discriminate.
Qed.

(** C7, amended: the JSON parser returns a top-level list as it is, and
    the value of the [contacts] key of an object that has one when that
    value is a list (or a string or an object, the other values with a
    length); it fails with [ValueError "Invalid JSON format"] exactly when
    the input is neither a list nor an object with a [contacts] key. *)
Theorem import_json_shapes (data : pyval) :
  (forall l, data = PList l -> import_json_data data = Ok (PList l))
  /\ (forall items v n, data = PDict items ->
        dict_get "contacts" items = Some v -> py_len v = Ok n ->
        import_json_data data = Ok v)
  /\ (forall items l, data = PDict items ->
        dict_get "contacts" items = Some (PList l) ->
        import_json_data data = Ok (PList l))
  /\ (import_json_data data = Raise (ValueError "Invalid JSON format")
      <-> ~ is_list data /\ ~ has_contacts data)
  /\ (forall msg, import_json_data data = Raise (ValueError msg)
        -> ~ is_list data /\ ~ has_contacts data).
Proof.
  assert (Hval : forall msg, import_json_data data = Raise (ValueError msg)
                   -> ~ is_list data /\ ~ has_contacts data).
  { intros msg. unfold import_json_data. destruct data; cbn; try tauto.
    - discriminate.
    - destruct (dict_get "contacts" items) as [v|] eqn:Hget; cbn.
      + destruct v; cbn; discriminate.
      + intros _. split; [tauto|]. by intros [? ?]. }
  split; [by intros l ->|].
  split. { intros items v n -> Hget Hlen. unfold import_json_data.
           rewrite Hget. cbn. by rewrite Hlen. }
  split. { intros items l -> Hget. unfold import_json_data. by rewrite Hget. }
  split; [|exact Hval].
  split; [apply Hval|]. intros [Hl Hc]. unfold import_json_data.
  destruct data; cbn in *; try done.
  destruct (dict_get "contacts" items); [|done]. destruct Hc. by eexists.
Qed.

Example import_json_examples :
  import_json_data (PList [PDict [("name", PStr "Ada")]])
    = Ok (PList [PDict [("name", PStr "Ada")]])
  /\ import_json_data (PDict [("version", PStr "1.0"); ("contacts", PList [])])
    = Ok (PList [])
  /\ import_json_data (PDict [("people", PList [])])
    = Raise (ValueError "Invalid JSON format")
  /\ import_json_data (PStr "contacts") = Raise (ValueError "Invalid JSON format")
  /\ import_json_data (PDict [("contacts", PNone)]) = Raise TypeError.
Proof. repeat split; reflexivity. Qed.

(** ** Export, then import *)

(** C2: for every list of records, what [export_kinect_json] writes is
    read back by [_import_json] as the same list, provided the JSON
    library reads the document it wrote back as it was. *)
Theorem export_import_roundtrip {text : Type}
    (json_dump : pyval -> text) (json_load : text -> option pyval)
    (now : string) (contacts : list pyval)
    (output_path : string) (fs : gmap string text) :
  json_load (json_dump (kinect_data now contacts)) = Some (kinect_data now contacts) ->
  _import_json json_load
    (export_kinect_json json_dump now contacts output_path fs) output_path
  = Ok (PList contacts).
Proof.
  intros Hlib. unfold _import_json, export_kinect_json.
  rewrite lookup_insert_eq, Hlib. reflexivity.
Qed.

Lemma export_import_roundtrip_witness :
  _import_json (text := pyval) Some
    (export_kinect_json (fun v => v) "2024-03-15T10:00:00"
       [contact_to_py sample_contact] "imports/imported_contacts.json" ∅)
    "imports/imported_contacts.json"
  = Ok (PList [contact_to_py sample_contact]).
Proof.
  apply (export_import_roundtrip (text := pyval) (fun v => v) Some). reflexivity.
Defined.

(** The exporter leaves every other file alone. *)
Lemma export_other_path {text : Type} (json_dump : pyval -> text)
    (now : string) (contacts : list pyval) (output_path other : string)
    (fs : gmap string text) :
  output_path <> other ->
  export_kinect_json json_dump now contacts output_path fs !! other = fs !! other.
Proof. intros Hne. unfold export_kinect_json. by rewrite lookup_insert_ne. Qed.

(** ** Reasoning about results and loops *)

Lemma bind_Ok {A B : Type} (m : result A) (k : A -> result B) (b : B) :
  m ≫= k = Ok b -> exists a, m = Ok a /\ k a = Ok b.
Proof. destruct m as [a|e]; cbn; [by eauto|discriminate]. Qed.

Lemma fmap_Ok {A B : Type} (f : A -> B) (m : result A) (b : B) :
  f <$> m = Ok b -> exists a, m = Ok a /\ b = f a.
Proof. destruct m as [a|e]; cbn; [|discriminate]. intros [= <-]. by eauto. Qed.

(** Taking a successful run of monadic code apart. *)
Ltac inv_result :=
  repeat match goal with
  | H : _ ≫= _ = Ok _ |- _ =>
      let a := fresh "a" in let Ha := fresh "Ha" in
      apply bind_Ok in H as (a & Ha & H)
  | H : _ <$> _ = Ok _ |- _ =>
      let a := fresh "a" in let Ha := fresh "Ha" in
      apply fmap_Ok in H as (a & Ha & ->)
  | H : Ok _ = Ok _ |- _ => injection H as H; subst
  | H : Raise _ = Ok _ |- _ => discriminate H
  | H : (if ?b then _ else _) = Ok _ |- _ => destruct b eqn:?
  end.

(** A property of the accumulator that every turn of a loop keeps holds
    when the loop ends. *)
Lemma for_each_invariant {A B : Type} (P : B -> Prop)
    (body : B -> A -> result B) (l : list A) (acc r : B) :
  (forall acc x acc', x ∈ l -> P acc -> body acc x = Ok acc' -> P acc') ->
  P acc -> for_each body l acc = Ok r -> P r.
Proof.
  revert acc. induction l as [|x l IH]; intros acc Hstep Hacc Hrun.
  - cbn in Hrun. by injection Hrun as <-.
  - cbn in Hrun. apply bind_Ok in Hrun as (acc' & Hbody & Hrun).
    apply (IH acc'); [|by eapply Hstep; [left| |]|done].
    intros ? y ? Hy. apply Hstep. by right.
Qed.

Lemma fold_left_invariant {A B : Type} (P : B -> Prop)
    (body : B -> A -> B) (l : list A) (acc : B) :
  (forall acc x, x ∈ l -> P acc -> P (body acc x)) ->
  P acc -> P (fold_left body l acc).
Proof.
  revert acc. induction l as [|x l IH]; intros acc Hstep Hacc; [done|].
  cbn. apply IH; [|apply Hstep; [left|done]].
  intros ? y Hy. apply Hstep. by right.
Qed.

(** ** Primary phones *)

Lemma primary_first_snoc (ps : list phone_entry) (ty num : string) :
  primary_first ps ->
  primary_first (ps ++ [mk_phone ty num (length ps =? 0)%nat]).
Proof.
  destruct ps as [|p rest]; cbn; [by auto|].
  intros [Hp Hrest]. split; [done|].
  apply Forall_app. split; [done|]. by repeat constructor.
Qed.

Lemma google_phones_primary (r : row) (l : list nat) (ps : list phone_entry) :
  for_each (google_phone_step r) l [] = Ok ps -> primary_first ps.
Proof.
  apply (for_each_invariant primary_first); [|done].
  intros acc i acc' _ Hacc Hstep. unfold google_phone_step in Hstep.
  inv_result; [by apply primary_first_snoc|done].
Qed.

Lemma outlook_phones_primary (r : row) (l : list string) (ps : list phone_entry) :
  for_each (outlook_phone_step r) l [] = Ok ps -> primary_first ps.
Proof.
  apply (for_each_invariant primary_first); [|done].
  intros acc i acc' _ Hacc Hstep. unfold outlook_phone_step in Hstep.
  inv_result; [by apply primary_first_snoc|done].
Qed.

Lemma vcard_phones_primary (v : vcard) : primary_first (phones (vcard_contact v)).
Proof.
  cbn. apply (fold_left_invariant primary_first); [|done].
  intros acc t _ Hacc. by apply primary_first_snoc.
Qed.

(** The phones of a vCard record are its TEL lines, in their order. *)
Lemma vcard_phones_numbers (v : vcard) :
  number <$> phones (vcard_contact v)
  = (fun t => _normalize_phone (tel_value t)) <$> tel v.
Proof.
  cbn. generalize (tel v). intros l.
  enough (forall acc, number <$> fold_left vcard_phone_step l acc
            = ((number <$> acc) ++ ((fun t => _normalize_phone (tel_value t)) <$> l))%list)
    as H by apply (H []).
  induction l as [|t l IH]; intros acc; cbn; [by rewrite app_nil_r|].
  rewrite IH. unfold vcard_phone_step. rewrite fmap_app. cbn.
  by rewrite <- app_assoc.
Qed.

Lemma csv_row_primary (csv_type : string) (r : row) (c : contact) :
  parse_csv_row csv_type r = Ok c -> primary_first (phones c).
Proof.
  unfold parse_csv_row. repeat case_decide.
  - unfold _parse_google_csv_row. intros Hrow. inv_result. cbn.
    by eapply google_phones_primary.
  - unfold _parse_outlook_csv_row. intros Hrow. inv_result; cbn;
      by eapply outlook_phones_primary.
  - unfold _parse_android_csv_row. intros Hrow. inv_result; cbn; by auto.
  - unfold _parse_generic_csv_row. intros Hrow. inv_result; cbn;
      by case_match; cbn; auto.
Qed.

(** ** What the parsers put into their output *)

Lemma truthy_has_name (c : contact) : truthy (name c) = true -> has_name c.
Proof.
  unfold has_name. destruct (name c) as [|s]; cbn; [discriminate|].
  intros Hs. exists s. split; [done|]. by intros ->.
Qed.

(** Every record of a CSV import is the parse of a row of the reader, and
    its name is true. *)
Lemma import_csv_records (DictReader : string -> ascii -> list row)
    (content csv_type : string) (out : list contact) :
  _import_csv DictReader content csv_type = Ok out ->
  Forall (fun c => truthy (name c) = true
                   /\ exists r, r ∈ DictReader content (csv_delimiter content)
                                /\ parse_csv_row csv_type r = Ok c) out.
Proof.
  unfold _import_csv. cbv zeta.
  apply for_each_invariant; [|by constructor].
  intros acc r acc' Hr Hacc Hstep. unfold import_csv_step in Hstep.
  inv_result; [|done].
  apply Forall_app. split; [done|]. repeat constructor; by eauto.
Qed.

(** Every record of a vCard import comes from a component of the file,
    and its name is true. *)
Lemma import_vcard_records (vobject : bool) (vcards : list vcard) (out : list contact) :
  _import_vcard vobject vcards = Ok out ->
  Forall (fun c => truthy (name c) = true
                   /\ exists v, v ∈ vcards /\ c = vcard_contact v) out.
Proof.
  unfold _import_vcard. destruct vobject; cbn [negb]; [|discriminate].
  intros [= <-].
  apply (fold_left_invariant
           (Forall (fun c => truthy (name c) = true
                             /\ exists v, v ∈ vcards /\ c = vcard_contact v)));
    [|by constructor].
  intros acc v Hv Hacc. unfold import_vcard_step. cbv zeta.
  destruct (truthy (name (vcard_contact v))) eqn:Hname; [|done].
  apply Forall_app. split; [done|]. repeat constructor; by eauto.
Qed.

(** C1, as stated, fails for the JSON parser: it returns the records as
    the file has them, so a record whose name is empty is in its output. *)
Lemma import_json_keeps_unnamed :
  import_json_data (PList [PDict [("name", PStr ""); ("phones", PList [])]])
    = Ok (PList [PDict [("name", PStr ""); ("phones", PList [])]])
  /\ py_has_name (PDict [("name", PStr ""); ("phones", PList [])]) = false
  /\ ~ (forall data l, import_json_data data = Ok (PList l) ->
          Forall (fun v => py_has_name v = true) l).
Proof.
  split; [reflexivity|]. split; [reflexivity|].
  intros H.
  specialize (H (PList [PDict [("name", PStr ""); ("phones", PList [])]]) _ eq_refl).
  apply Forall_inv in H. discriminate.
Qed.

(** C1, amended: every record in the sequence the vCard parser or one of
    the four CSV parsers returns has a non-empty name, a record whose
    resolved name is empty never enters it; the JSON parser checks nothing
    and returns the records of the file as they are. *)
Theorem parsers_emit_named_records :
  (forall vobject vcards out,
     _import_vcard vobject vcards = Ok out -> Forall has_name out)
  /\ (forall (DictReader : string -> ascii -> list row) content csv_type out,
        _import_csv DictReader content csv_type = Ok out -> Forall has_name out)
  /\ (forall contacts v,
        truthy (name (vcard_contact v)) = false ->
        import_vcard_step contacts v = contacts)
  /\ (forall csv_type contacts r c,
        parse_csv_row csv_type r = Ok c -> truthy (name c) = false ->
        import_csv_step csv_type contacts r = Ok contacts)
  /\ (forall l, import_json_data (PList l) = Ok (PList l))
  /\ (forall items l, dict_get "contacts" items = Some (PList l) ->
        import_json_data (PDict items) = Ok (PList l)).
Proof.
  split.
  { intros vobject vcards out Hout.
    eapply Forall_impl; [by eapply import_vcard_records|].
    intros c [Hc _]. by apply truthy_has_name. }
  split.
  { intros DictReader content csv_type out Hout.
    eapply Forall_impl; [by eapply import_csv_records|].
    intros c [Hc _]. by apply truthy_has_name. }
  split. { intros contacts v Hv. unfold import_vcard_step. cbv zeta. by rewrite Hv. }
  split. { intros csv_type contacts r c Hc Hname. unfold import_csv_step.
           rewrite Hc. cbn. by rewrite Hname. }
  split; [done|].
  intros items l Hget. unfold import_json_data. by rewrite Hget.
Qed.

Lemma parsers_emit_named_records_witness :
  _import_csv sample_reader "Name,First Name,Last Name,Phone" "generic_csv"
    = Ok sample_generic_contacts
  /\ Forall has_name sample_generic_contacts.
Proof.
  assert (Hrun : _import_csv sample_reader "Name,First Name,Last Name,Phone" "generic_csv"
                 = Ok sample_generic_contacts) by (vm_compute; reflexivity).
  split; [exact Hrun|].
  destruct parsers_emit_named_records as (_ & Hcsv & _).
  exact (Hcsv sample_reader _ _ _ Hrun).
Defined.

(** C8: in every record the vCard parser or a CSV parser returns, if
    there are phones then the first one is primary and no later one is. *)
Theorem primary_phone_is_first :
  (forall vobject vcards out,
     _import_vcard vobject vcards = Ok out ->
     Forall (fun c => primary_first (phones c)) out)
  /\ (forall (DictReader : string -> ascii -> list row) content csv_type out,
        _import_csv DictReader content csv_type = Ok out ->
        Forall (fun c => primary_first (phones c)) out)
  /\ (forall ps, primary_first ps -> ps <> [] ->
        exists p rest, ps = p :: rest /\ primary p = true
                       /\ Forall (fun q => primary q = false) rest)
  /\ (forall v, number <$> phones (vcard_contact v)
                = (fun t => _normalize_phone (tel_value t)) <$> tel v).
Proof.
  split.
  { intros vobject vcards out Hout.
    eapply Forall_impl; [by eapply import_vcard_records|].
    intros c (_ & v & _ & ->). apply vcard_phones_primary. }
  split.
  { intros DictReader content csv_type out Hout.
    eapply Forall_impl; [by eapply import_csv_records|].
    intros c (_ & r & _ & Hr). by eapply csv_row_primary. }
  split; [|exact vcard_phones_numbers].
  intros [|p rest] Hps Hne; [done|]. destruct Hps. by eauto.
Qed.

Lemma primary_phone_is_first_witness :
  _import_vcard true [sample_vcard] = Ok [sample_vcard_contact]
  /\ Forall (fun c => primary_first (phones c)) [sample_vcard_contact].
Proof.
  assert (Hrun : _import_vcard true [sample_vcard] = Ok [sample_vcard_contact])
    by (vm_compute; reflexivity).
  split; [exact Hrun|].
  destruct primary_phone_is_first as (Hvcard & _).
  exact (Hvcard true _ _ Hrun).
Defined.

(** ** The name of a generic row *)

Lemma first_present_none (r : row) (fields : list string) :
  Forall (fun f => truthy (row_get r f CNone) = false) fields ->
  first_present r fields = "".
Proof.
  induction 1 as [|f fields Hf _ IH]; [done|]. cbn [first_present].
  destruct (row_get r f CNone) as [|s]; [done|].
  destruct s; [done|discriminate].
Qed.

Lemma column_or_else_get (r : row) (a b : string) :
  row_get r a (row_get r b (CStr "")) = column_or_else r a b.
Proof.
  unfold row_get, column_or_else. destruct (r !! a); [done|]. by destruct (r !! b).
Qed.

(** C9, as stated, fails: in a row with an empty [First Name] column and
    [Ann] in the [Given Name] column, the first-name part is empty, not
    [Ann]; the second column is looked at only when the row has no first
    one. *)
Lemma generic_name_empty_first_name :
  name_columns_empty empty_first_name_row
  /\ name <$> _parse_generic_csv_row empty_first_name_row = Ok (CStr "Lee")
  /\ claimed_generic_name empty_first_name_row = Ok "Ann Lee"
  /\ ~ (forall r c s, name_columns_empty r ->
          _parse_generic_csv_row r = Ok c ->
          claimed_generic_name r = Ok s -> name c = CStr s).
Proof.
  assert (Hempty : name_columns_empty empty_first_name_row)
    by (repeat constructor).
  split; [exact Hempty|].
  split; [vm_compute; reflexivity|]. split; [vm_compute; reflexivity|].
  intros H.
  destruct (_parse_generic_csv_row empty_first_name_row) as [c|e] eqn:Hc;
    [|vm_compute in Hc; discriminate].
  specialize (H empty_first_name_row c "Ann Lee" Hempty Hc).
  assert (Hname : name c = CStr "Lee").
  { vm_compute in Hc. by injection Hc as <-. }
  rewrite Hname in H. discriminate H. vm_compute; reflexivity.
Qed.

(** C9, amended: in a generic row whose columns Name, Full Name, Display
    Name and Contact Name are all empty, the resolved name is the trimmed,
    space-joined combination of a first-name part and a last-name part, each
    trimmed; the first-name part is the First Name column when the row has
    that column, empty or not, and the Given Name column only when it has
    not; the last-name part is, in the same way, Last Name or else Family
    Name. *)
Theorem generic_name_fallback (r : row) (first last : string) :
  name_columns_empty r ->
  column_or_else r "First Name" "Given Name" = CStr first ->
  column_or_else r "Last Name" "Family Name" = CStr last ->
  exists c, _parse_generic_csv_row r = Ok c
            /\ name c = CStr (strip (strip first ++ " " ++ strip last)).
Proof.
  intros Hempty Hfirst Hlast. unfold _parse_generic_csv_row.
  rewrite (first_present_none r _ Hempty). cbn [is_empty].
  rewrite !column_or_else_get, Hfirst, Hlast. cbn. by eexists.
Qed.

Lemma generic_name_fallback_witness :
  exists c, _parse_generic_csv_row grace_row = Ok c
            /\ name c = CStr "Grace Hopper".
Proof.
  apply (generic_name_fallback grace_row "Grace " "Hopper").
  - repeat constructor.
  - reflexivity.
  - reflexivity.
Defined.

(** * Further properties of the importer *)

(** ** The normalizers *)

(** X1: the phone-type normalizer answers with one of the three types of
    the record, and each of these is a type it leaves as it is. *)
Theorem normalize_phone_type_range (phone_type : string) :
  _normalize_phone_type phone_type ∈ ["mobile"; "work"; "home"]
  /\ _normalize_phone_type (_normalize_phone_type phone_type)
     = _normalize_phone_type phone_type.
Proof.
  unfold _normalize_phone_type at 1 3 4. cbv zeta.
  destruct (contains "mobile" (lower phone_type) || contains "cell" (lower phone_type)).
  { split; [set_solver|reflexivity]. }
  destruct (contains "work" (lower phone_type) || contains "business" (lower phone_type)).
  { split; [set_solver|reflexivity]. }
  destruct (contains "home" (lower phone_type)); (split; [set_solver|reflexivity]).
Qed.

(** X2: the country-code rules act on the kept characters (digits and
    plus signs): kept characters that start with a plus sign are returned
    as they are; otherwise ten of them get [+1] in front, and eleven of
    them that start with 1 get [+] in front; any other number of them is
    returned as it is. *)
Theorem normalize_phone_country_code (phone : string) :
  let kept := str_filter phone_char phone in
  (startswith "+" kept = true -> _normalize_phone phone = kept)
  /\ (startswith "+" kept = false -> String.length kept = 10 ->
      _normalize_phone phone = "+1" ++ kept)
  /\ (startswith "1" kept = true -> String.length kept = 11 ->
      _normalize_phone phone = "+" ++ kept)
  /\ (String.length kept <> 10 -> String.length kept <> 11 ->
      _normalize_phone phone = kept).
Proof.
  cbv zeta. unfold _normalize_phone. cbv zeta.
  destruct phone as [|c r]; [by repeat split|]. cbn [is_empty].
  set (kept := str_filter phone_char (String c r)).
  repeat split.
  - intros ->. by rewrite andb_false_r.
  - intros Hplus Hlen. rewrite Hplus.
    assert (is_empty kept = false) as -> by (by destruct kept).
    cbn [negb andb]. rewrite Hlen. cbn. by rewrite andb_false_r.
  - intros H1 Hlen.
    assert (is_empty kept = false) as -> by (by destruct kept).
    assert (startswith "+" kept = false) as ->.
    { destruct kept as [|a k]; [done|]. cbn in *.
      destruct (decide ("1"%char = a)) as [<-|]; [done|discriminate]. }
    cbn [negb andb]. by rewrite H1, Hlen.
  - intros H10 H11.
    apply Nat.eqb_neq in H10, H11. rewrite H10, H11, andb_false_r.
    by destruct (negb (is_empty kept) && negb (startswith "+" kept)).
Qed.

Lemma normalize_phone_country_code_witness :
  _normalize_phone "(555) 123-4567" = "+15551234567".
Proof.
  destruct (normalize_phone_country_code "(555) 123-4567") as (_ & H10 & _).
  apply H10; reflexivity.
Defined.

(** X3: the phone normalizer returns the empty string exactly for an
    input without any digit or plus sign. *)
Theorem normalize_phone_empty_iff (phone : string) :
  _normalize_phone phone = "" <-> str_filter phone_char phone = "".
Proof.
  destruct (normalize_phone_shape phone) as [H | [H | H]]; rewrite H.
  - done.
  - split; [discriminate|]. intros Hk. exfalso. revert H. unfold _normalize_phone.
    destruct phone; [done|]. cbn [is_empty]. cbv zeta. rewrite Hk. done.
  - split; [discriminate|]. intros Hk. exfalso. revert H. unfold _normalize_phone.
    destruct phone; [done|]. cbn [is_empty]. cbv zeta. rewrite Hk. done.
Qed.

(** ** The date normalizer, again *)

(** A result of the loop comes from the first format that parses. *)
Lemma try_formats_first (fmts : list string) (data d : string) :
  try_formats fmts data = Some d ->
  exists before fmt after t,
    fmts = (before ++ fmt :: after)%list
    /\ Forall (fun f => strptime data f = None) before
    /\ strptime data fmt = Some t /\ d = strftime_ymd t.
Proof.
  induction fmts as [|fmt fmts IH]; [discriminate|].
  change (try_formats (fmt :: fmts) data)
    with (match strptime data fmt with
          | Some dt => Some (strftime_ymd dt)
          | None => try_formats fmts data
          end).
  destruct (strptime data fmt) as [t|] eqn:Hfmt.
  - intros [= <-]. exists [], fmt, fmts, t. by repeat split.
  - intros (before & fmt' & after & t & -> & Hbefore & Hp & Hd)%IH.
    exists (fmt :: before), fmt', after, t. repeat split; try done.
    by constructor.
Qed.

(** X4: a date the normalizer returns is the rendering by [strftime] of
    the parse of its trimmed input by the first of the seven formats that
    parses it, and that parse is a date of the calendar: year 1 to 9999,
    month 1 to 12, and a day the month has in that year. *)
Theorem parse_date_is_calendar_date (date_str : cell) (d : string) :
  _parse_date date_str = Some d ->
  exists s before fmt after t,
    date_str = CStr s
    /\ date_formats = (before ++ fmt :: after)%list
    /\ Forall (fun f => strptime (strip s) f = None) before
    /\ strptime (strip s) fmt = Some t
    /\ d = strftime_ymd t
    /\ (1 <= tm_year t <= 9999)
    /\ (1 <= tm_mon t <= 12)
    /\ (1 <= tm_mday t <= days_in_month (tm_year t) (tm_mon t)).
Proof.
  unfold _parse_date. destruct date_str as [|s]; [discriminate|].
  destruct (is_empty s); [discriminate|].
  intros (before & fmt & after & t & Hsplit & Hbefore & Hp & ->)%try_formats_first.
  exists s, before, fmt, after, t. do 5 (split; [done|]).
  apply strptime_valid in Hp. unfold valid_datetime in Hp.
  repeat (apply andb_true_iff in Hp as [Hp ?]).
  repeat match goal with H : (_ <=? _)%nat = true |- _ => apply Nat.leb_le in H end.
  lia.
Qed.

Lemma parse_date_is_calendar_date_witness :
  exists s before fmt after t,
    CStr "February 29, 2024" = CStr s
    /\ date_formats = (before ++ fmt :: after)%list
    /\ Forall (fun f => strptime (strip s) f = None) before
    /\ strptime (strip s) fmt = Some t
    /\ "2024-02-29" = strftime_ymd t
    /\ (1 <= tm_year t <= 9999)
    /\ (1 <= tm_mon t <= 12)
    /\ (1 <= tm_mday t <= days_in_month (tm_year t) (tm_mon t)).
Proof.
  apply (parse_date_is_calendar_date (CStr "February 29, 2024")).
  vm_compute. reflexivity.
Defined.

Lemma re_Y_fmt4 (y : nat) (rest : string) :
  y < 10 * 1000 -> re_Y (fmt4 y ++ rest) = [(y, rest)].
Proof.
  intros Hy. unfold fmt4, fmt2.
  assert (Hsum : 1000 * (y / 1000 mod 10) + 100 * (y / 100 mod 10)
                 + 10 * (y / 10 mod 10) + y mod 10 = y).
  { replace (y / 1000) with (y / 10 / 10 / 10)
      by (by rewrite !Nat.Div0.div_div).
    replace (y / 100) with (y / 10 / 10) by (by rewrite !Nat.Div0.div_div).
    pose proof (Nat.div_mod_eq y 10) as E1.
    pose proof (Nat.div_mod_eq (y / 10) 10) as E2.
    pose proof (Nat.div_mod_eq (y / 10 / 10) 10) as E3.
    assert (y / 10 / 10 / 10 < 10) as E4.
    { rewrite !Nat.Div0.div_div. apply Nat.Div0.div_lt_upper_bound. lia. }
    rewrite (Nat.mod_small _ _ E4).
    revert E1 E2 E3 E4.
    generalize (y / 10 / 10 / 10), (y / 10 / 10 mod 10), (y / 10 mod 10), (y mod 10).
    generalize (y / 10 / 10). generalize (y / 10). lia. }
  pose proof (digit_char_facts (y / 1000 mod 10)
                (Nat.mod_upper_bound _ 10 ltac:(lia))) as (Ha1 & Ha2 & _).
  pose proof (digit_char_facts (y / 100 mod 10)
                (Nat.mod_upper_bound _ 10 ltac:(lia))) as (Hb1 & Hb2 & _).
  pose proof (digit_char_facts (y / 10 mod 10)
                (Nat.mod_upper_bound _ 10 ltac:(lia))) as (Hc1 & Hc2 & _).
  pose proof (digit_char_facts (y mod 10)
                (Nat.mod_upper_bound _ 10 ltac:(lia))) as (Hd1 & Hd2 & _).
  revert Hsum Ha1 Ha2 Hb1 Hb2 Hc1 Hc2 Hd1 Hd2.
  generalize (y / 1000 mod 10), (y / 100 mod 10), (y / 10 mod 10), (y mod 10).
  intros a b c d Hsum Ha1 Ha2 Hb1 Hb2 Hc1 Hc2 Hd1 Hd2.
  rewrite !append_String, append_empty. unfold re_Y.
  rewrite Ha1, Hb1, Hc1, Hd1, Ha2, Hb2, Hc2, Hd2. cbn [andb]. by rewrite Hsum.
Qed.

(** Case analysis on a number below a bound. *)
Ltac split_le m := first [ lia | destruct m as [|m]; [ | split_le m ] ].

Lemma month_day_match (t : tm) (m d : nat) :
  1 <= m <= 12 -> 1 <= d <= 31 ->
  exists tail,
    match_items [Literal "-"; Directive "m"; Literal "-"; Directive "d"]
      [(t, "-" ++ fmt2 m ++ "-" ++ fmt2 d)]
    = Some ((mk_tm (tm_year t) m d (tm_hour t) (tm_min t) (tm_sec t), "") :: tail).
Proof.
  intros Hm Hd.
  split_le m; try lia; split_le d; try lia; vm_compute; eexists; reflexivity.
Qed.

Lemma match_items_Y (t0 : tm) (s : string) (its : list item) :
  match_items (Directive "Y" :: its) [(t0, s)]
  = match_items its
      (map (fun '(v, r) => (mk_tm v (tm_mon t0) (tm_mday t0) (tm_hour t0) (tm_min t0) (tm_sec t0), r))
           (re_Y s)).
Proof.
  change (match_items (Directive "Y" :: its) [(t0, s)])
    with (match_items its
            (map (fun '(v, r) => (mk_tm v (tm_mon t0) (tm_mday t0) (tm_hour t0) (tm_min t0) (tm_sec t0), r))
                 (re_Y s) ++ [])%list).
  by rewrite app_nil_r.
Qed.

(** What [strftime] wrote with a four-digit year, the first format reads
    back. *)
Lemma strptime_strftime_ymd (t : tm) :
  valid_datetime t = true ->
  fmt_year (tm_year t) = fmt4 (tm_year t) ->
  strptime (strftime_ymd t) "%Y-%m-%d"
  = Some (mk_tm (tm_year t) (tm_mon t) (tm_mday t) 0 0 0).
Proof.
  intros Hv Hfour. pose proof Hv as Hv'. unfold valid_datetime in Hv.
  repeat (apply andb_true_iff in Hv as [Hv ?]).
  assert (Hy : tm_year t < 10 * 1000) by (by apply year_bound).
  repeat match goal with H : (_ <=? _)%nat = true |- _ => apply Nat.leb_le in H end.
  assert (Hd : tm_mday t <= 31).
  { etrans; [eassumption|]. unfold days_in_month. repeat case_match; lia. }
  unfold strptime, strftime_ymd. rewrite Hfour.
  change (pattern "%Y-%m-%d")
    with [Directive "Y"; Literal "-"; Directive "m"; Literal "-"; Directive "d"].
  rewrite match_items_Y, re_Y_fmt4 by done.
  cbn [map tm_default tm_mon tm_mday tm_hour tm_min tm_sec].
  destruct (month_day_match (mk_tm (tm_year t) 1 1 0 0 0) (tm_mon t) (tm_mday t))
    as [tail ->]; [lia|lia|].
  cbn [mbind option_bind is_empty tm_year tm_hour tm_min tm_sec].
  assert (valid_datetime (mk_tm (tm_year t) (tm_mon t) (tm_mday t) 0 0 0) = true) as ->; [|done].
  unfold valid_datetime in *. cbn [tm_year tm_mon tm_mday tm_hour tm_min tm_sec].
  repeat (apply andb_true_iff in Hv' as [Hv' ?]).
  repeat (apply andb_true_iff; split); done.
Qed.

Lemma lstrip_fixed (s : string) : starts_nonspace s = true -> lstrip s = s.
Proof. destruct s as [|c r]; [done|]. cbn. by destruct (is_space c). Qed.

Lemma rstrip_fixed (s : string) : ends_nonspace s = true -> rstrip s = s.
Proof.
  induction s as [|c r IH]; [done|]. cbn [rstrip ends_nonspace].
  destruct r as [|b r'].
  - cbn. by destruct (is_space c).
  - intros Hr. rewrite (IH Hr). done.
Qed.

Lemma strip_four_digit_date (t : tm) :
  fmt_year (tm_year t) = fmt4 (tm_year t) ->
  strip (strftime_ymd t) = strftime_ymd t.
Proof.
  intros Hfour. unfold strip, strftime_ymd. rewrite Hfour. unfold fmt4, fmt2.
  rewrite !append_String, !append_empty.
  assert (Hsp : forall n, is_space (digit_char (n mod 10)) = false).
  { intros n. apply digit_char_facts. apply Nat.mod_upper_bound. lia. }
  rewrite lstrip_fixed by (cbn [starts_nonspace]; by rewrite Hsp).
  rewrite rstrip_fixed by (cbn [ends_nonspace]; by rewrite Hsp).
  done.
Qed.

Lemma str_length_append (s r : string) :
  String.length (s ++ r) = String.length s + String.length r.
Proof. induction s as [|c s IH]; [done|]. rewrite append_String. cbn. by rewrite IH. Qed.

Lemma drop_zeros_length (s : string) :
  String.length (drop_zeros s) <= String.length s.
Proof.
  induction s as [|c r IH]; [done|]. cbn [drop_zeros].
  destruct r as [|b r']; [done|].
  destruct (decide (c = "0"%char)); [|done].
  etrans; [exact IH|]. cbn. lia.
Qed.

Lemma drop_zeros_cons (c b : ascii) (r : string) :
  drop_zeros (String c (String b r))
  = if decide (c = "0"%char) then drop_zeros (String b r) else String c (String b r).
Proof. reflexivity. Qed.

(** A year written in four characters kept its four digits. *)
Lemma fmt_year_length (y : nat) :
  String.length (fmt_year y) = 4 -> fmt_year y = fmt4 y.
Proof.
  unfold fmt_year, fmt4, fmt2. rewrite drop_zeros_cons.
  destruct (decide (digit_char (y / 1000 mod 10) = "0"%char)); [|done].
  intros Hlen.
  pose proof (drop_zeros_length
                (String (digit_char (y / 100 mod 10))
                   (String (digit_char (y / 10 mod 10))
                      (String (digit_char (y mod 10)) "")))) as Hle.
  cbn [String.length] in Hle. lia.
Qed.

(** X5: the date normalizer is idempotent on the results that have the
    full form of ten characters, which are those of the years from 1000 on:
    such a date, given to the normalizer again, comes back unchanged (the
    first format reads what [strftime] wrote).  A year below 1000 is written
    without its leading zeros and is not read back. *)
Theorem parse_date_idempotent (date_str : cell) (d : string) :
  _parse_date date_str = Some d ->
  String.length d = 10 ->
  _parse_date (CStr d) = Some d.
Proof.
  intros Hd Hlen. unfold _parse_date in Hd.
  destruct date_str as [|s]; [discriminate|].
  destruct (is_empty s); [discriminate|].
  apply try_formats_first in Hd as (_ & fmt & _ & t & _ & _ & Hp & ->).
  apply strptime_valid in Hp.
  assert (Hfour : fmt_year (tm_year t) = fmt4 (tm_year t)).
  { apply fmt_year_length. unfold strftime_ymd in Hlen.
    rewrite !str_length_append in Hlen. cbn [String.length fmt2] in Hlen. lia. }
  unfold _parse_date.
  assert (is_empty (strftime_ymd t) = false) as ->.
  { unfold strftime_ymd. rewrite Hfour. reflexivity. }
  rewrite strip_four_digit_date by done.
  unfold date_formats.
  by rewrite (try_formats_hit _ _ _ _ (strptime_strftime_ymd t Hp Hfour)).
Qed.

Lemma parse_date_idempotent_witness :
  _parse_date (CStr "2020-03-04") = Some "2020-03-04".
Proof.
  apply (parse_date_idempotent (CStr "03/04/2020")); vm_compute; reflexivity.
Defined.

(** ** Detection and dispatch *)

Lemma classify_header_cases (h : string) :
  classify_header h = "google_csv" \/ classify_header h = "outlook_csv"
  \/ classify_header h = "android_csv" \/ classify_header h = "generic_csv".
Proof. unfold classify_header. repeat case_match; auto. Qed.

(** X6: on the extensions [.vcf], [.json] and [.csv], in any letter case,
    detection succeeds with one of the six format tags; on every other
    extension it fails with [ValueError], naming the lower-cased
    extension. *)
Theorem detect_format_supported (suffix content : string) :
  (lower suffix ∈ [".vcf"; ".json"; ".csv"] ->
   exists tag, detect_format suffix content = Ok tag
     /\ tag ∈ ["vcard"; "json"; "google_csv"; "outlook_csv"; "android_csv"; "generic_csv"])
  /\ (lower suffix ∉ [".vcf"; ".json"; ".csv"] ->
      detect_format suffix content
      = Raise (ValueError ("Unsupported file format: " ++ lower suffix))).
Proof.
  unfold detect_format. cbv zeta. split.
  - intros Hin. repeat case_decide.
    + eexists. split; [done|]. set_solver.
    + eexists. split; [done|]. set_solver.
    + eexists. split; [done|]. unfold _detect_csv_format.
      destruct (classify_header_cases (lower (strip (readline content))))
        as [-> | [-> | [-> | ->]]]; set_solver.
    + set_solver.
  - intros Hout. repeat case_decide; try done; set_solver.
Qed.

Lemma detect_format_supported_witness :
  exists tag, detect_format ".VCF" "" = Ok tag
     /\ tag ∈ ["vcard"; "json"; "google_csv"; "outlook_csv"; "android_csv"; "generic_csv"].
Proof.
  destruct (detect_format_supported ".VCF" "") as [H _]. apply H.
  vm_compute. left.
Defined.

Section Dispatch.
Variable vobject : bool.
Variable readComponents : string -> result (list vcard).
Variable DictReader : string -> ascii -> list row.
Variable json_load : string -> option pyval.

Local Abbreviation import := (import_file vobject readComponents DictReader json_load).

Lemma import_file_format (file_path suffix content : string)
    (hint : option string) (ft : string) :
  match hint with
  | Some h => if is_empty h then detect_format suffix content else Ok h
  | None => detect_format suffix content
  end = Ok ft ->
  import file_path suffix content hint
  = if decide (ft = "vcard") then
      if negb vobject then Raise ImportError
      else vcards ← readComponents content;
           Records <$> _import_vcard vobject vcards
    else if decide (ft = "json") then
      Stored <$> _import_json json_load {[file_path := content]} file_path
    else if bool_decide (ft ∈ csv_types) then
      Records <$> _import_csv DictReader content ft
    else Raise (ValueError ("Unknown format: " ++ ft)).
Proof. intros H. unfold import_file. by rewrite H. Qed.

(** X7: a format hint that is not empty is used as it is: the extension of
    the file plays no part, not even an unsupported one, and a hint that is
    none of the six format tags fails with [ValueError "Unknown format"]. *)
Theorem import_file_hint (file_path suffix content h : string) :
  h <> "" ->
  (forall suffix' content',
     content' = content ->
     import file_path suffix' content' (Some h)
     = import file_path suffix content (Some h))
  /\ (h ∉ "vcard" :: "json" :: csv_types ->
      import file_path suffix content (Some h)
      = Raise (ValueError ("Unknown format: " ++ h))).
Proof.
  intros Hh.
  assert (Hne : is_empty h = false) by (by destruct h).
  split.
  - intros suffix' content' ->.
    rewrite !(import_file_format _ _ _ (Some h) h) by (by rewrite Hne). done.
  - intros Hout. rewrite (import_file_format _ _ _ (Some h) h) by (by rewrite Hne).
    repeat case_decide; try set_solver.
Qed.

(** X8: without a hint (or with an empty one) the extension decides: a
    [.vcf] file goes to the vCard parser, which raises [ImportError] before
    anything is read when the library is missing; a [.json] file goes to the
    JSON parser; a [.csv] file goes to the CSV parser with the variant its
    header line gives; any other extension fails with [ValueError]. *)
Theorem import_file_by_extension (file_path suffix content : string) :
  import file_path suffix content (Some "") = import file_path suffix content None
  /\ (lower suffix = ".vcf" ->
      import file_path suffix content None
      = if vobject
        then vcards ← readComponents content; Records <$> _import_vcard true vcards
        else Raise ImportError)
  /\ (lower suffix = ".json" ->
      import file_path suffix content None
      = Stored <$> _import_json json_load {[file_path := content]} file_path)
  /\ (lower suffix = ".csv" ->
      import file_path suffix content None
      = Records <$> _import_csv DictReader content (_detect_csv_format content))
  /\ (lower suffix ∉ [".vcf"; ".json"; ".csv"] ->
      import file_path suffix content None
      = Raise (ValueError ("Unsupported file format: " ++ lower suffix))).
Proof.
  split; [done|].
  split.
  { intros H. rewrite (import_file_format _ _ _ None "vcard").
    - by destruct vobject.
    - unfold detect_format. by rewrite H. }
  split.
  { intros H. rewrite (import_file_format _ _ _ None "json"); [done|].
    unfold detect_format. by rewrite H. }
  split.
  { intros H. rewrite (import_file_format _ _ _ None (_detect_csv_format content)).
    - unfold _detect_csv_format.
      destruct (classify_header_cases (lower (strip (readline content))))
        as [-> | [-> | [-> | ->]]]; done.
    - unfold detect_format. by rewrite H. }
  intros H. unfold import_file, detect_format. cbv zeta.
  repeat case_decide; try done; set_solver.
Qed.
End Dispatch.

Lemma import_file_hint_witness :
  import_file true (fun _ => Ok []) sample_reader (fun _ => None)
    "contacts.txt" ".txt" "Name,First Name,Last Name,Phone" (Some "generic_csv")
  = Ok (Records sample_generic_contacts).
Proof.
  destruct (import_file_hint true (fun _ => Ok []) sample_reader (fun _ => None)
              "contacts.txt" ".csv" "Name,First Name,Last Name,Phone" "generic_csv")
    as [H _]; [discriminate|].
  rewrite (H ".txt" _ eq_refl). vm_compute. reflexivity.
Defined.

Lemma import_file_by_extension_witness :
  import_file true (fun _ => Ok [sample_vcard]) sample_reader (fun _ => None)
    "contacts.VCF" ".VCF" "BEGIN:VCARD" None
  = Ok (Records [sample_vcard_contact]).
Proof.
  destruct (import_file_by_extension true (fun _ => Ok [sample_vcard]) sample_reader
              (fun _ => None) "contacts.VCF" ".VCF" "BEGIN:VCARD") as (_ & H & _).
  rewrite H by reflexivity. vm_compute. reflexivity.
Defined.


(** ** The records of the vCard and CSV parsers *)

Lemma normalize_phone_type_in (s : string) :
  _normalize_phone_type s ∈ ["mobile"; "work"; "home"].
Proof. unfold _normalize_phone_type. cbv zeta. repeat case_match; set_solver. Qed.

Lemma normalize_phone_again (s : string) :
  _normalize_phone (_normalize_phone s) = _normalize_phone s.
Proof.
  destruct (normalize_phone_settled s) as [Hall [-> | Hcase]]; [reflexivity|].
  by apply normalize_phone_fixed.
Qed.

Lemma for_each_length {A B : Type} (body : list B -> A -> result (list B))
    (l : list A) (acc r : list B) :
  (forall acc x acc', body acc x = Ok acc' -> length acc' <= S (length acc)) ->
  for_each body l acc = Ok r -> length r <= length acc + length l.
Proof.
  intros Hstep. revert acc. induction l as [|x l IH]; intros acc Hrun.
  - cbn in Hrun. injection Hrun as <-. lia.
  - cbn in Hrun. apply bind_Ok in Hrun as (acc' & Hbody & Hrun).
    apply IH in Hrun. apply Hstep in Hbody. cbn. lia.
Qed.

Lemma google_phones_ok (r : row) (l : list nat) (ps : list phone_entry) :
  for_each (google_phone_step r) l [] = Ok ps ->
  Forall phone_ok ps /\ length ps <= length l.
Proof.
  intros Hrun. split.
  - revert Hrun. apply (for_each_invariant (Forall phone_ok)); [|done].
    intros acc i acc' _ Hacc Hstep. unfold google_phone_step in Hstep.
    inv_result; [|done]. apply Forall_app. split; [done|].
    apply Forall_singleton. split; cbn;
      [apply normalize_phone_type_in|apply normalize_phone_again].
  - apply for_each_length in Hrun; [done|].
    intros acc i acc' Hstep. unfold google_phone_step in Hstep.
    inv_result; [rewrite length_app; cbn; lia|lia].
Qed.

Lemma google_emails_length (r : row) (l : list nat) (es : list string) :
  for_each (google_email_step r) l [] = Ok es -> length es <= length l.
Proof.
  intros Hrun. apply for_each_length in Hrun; [done|].
  intros acc i acc' Hstep. unfold google_email_step in Hstep.
  inv_result; [rewrite length_app; cbn; lia|lia].
Qed.

Lemma outlook_phones_ok (r : row) (l : list string) (ps : list phone_entry) :
  for_each (outlook_phone_step r) l [] = Ok ps ->
  Forall phone_ok ps /\ length ps <= length l.
Proof.
  intros Hrun. split.
  - revert Hrun. apply (for_each_invariant (Forall phone_ok)); [|done].
    intros acc i acc' _ Hacc Hstep. unfold outlook_phone_step in Hstep.
    inv_result; [|done]. apply Forall_app. split; [done|].
    apply Forall_singleton. split; cbn;
      [apply normalize_phone_type_in|apply normalize_phone_again].
  - apply for_each_length in Hrun; [done|].
    intros acc i acc' Hstep. unfold outlook_phone_step in Hstep.
    inv_result; [rewrite length_app; cbn; lia|lia].
Qed.

Lemma mobile_phone_ok (s : string) (b : bool) :
  phone_ok (mk_phone "mobile" (_normalize_phone s) b).
Proof. split; cbn; [set_solver|apply normalize_phone_again]. Qed.

(** What every successfully parsed row carries. *)
Lemma csv_row_invariants (csv_type : string) (r : row) (c : contact) :
  parse_csv_row csv_type r = Ok c ->
  Forall phone_ok (phones c)
  /\ category c = "Friend" /\ lastContact c = None
  /\ length (phones c) <= 5 /\ length (emails c) <= 3
  /\ (csv_type <> "google_csv" -> length (phones c) <= 3 /\ length (emails c) <= 1)
  /\ (csv_type <> "google_csv" -> csv_type <> "outlook_csv" -> length (phones c) <= 1).
Proof.
  unfold parse_csv_row. repeat case_decide.
  - unfold _parse_google_csv_row. intros Hrow. inv_result. cbn.
    match goal with H : for_each (google_phone_step _) _ _ = _ |- _ =>
      apply google_phones_ok in H as [? ?] end.
    match goal with H : for_each (google_email_step _) _ _ = _ |- _ =>
      apply google_emails_length in H end.
    cbn in *. repeat split; try done; lia.
  - unfold _parse_outlook_csv_row. intros Hrow. inv_result; cbn;
    match goal with H : for_each (outlook_phone_step _) _ _ = _ |- _ =>
      apply outlook_phones_ok in H as [? ?] end;
    cbn in *; repeat split; try done; lia.
  - unfold _parse_android_csv_row. intros Hrow. inv_result; cbn;
      (repeat split; try done; try lia).
    all: apply Forall_singleton; destruct (row_get r "Phone" (CStr "")) as [|s];
      [split; cbn; [set_solver|done]|apply mobile_phone_ok].
  - unfold _parse_generic_csv_row. intros Hrow. inv_result; cbn;
      (repeat split; try done; try (case_match; cbn; lia)).
    all: case_match; [apply Forall_singleton, mobile_phone_ok|constructor].
Qed.

Lemma vcard_phones_ok (v : vcard) : Forall phone_ok (phones (vcard_contact v)).
Proof.
  cbn. apply (fold_left_invariant (Forall phone_ok)); [|done].
  intros acc t _ Hacc. unfold vcard_phone_step. apply Forall_app. split; [done|].
  apply Forall_singleton. split; cbn; [|apply normalize_phone_again].
  unfold vcard_phone_type. repeat case_match; set_solver.
Qed.

(** Every record of either parser satisfies what every parsed row and
    every vCard component satisfies. *)
Lemma parsed_records_satisfy (P : contact -> Prop) :
  (forall v, P (vcard_contact v)) ->
  (forall csv_type r c, parse_csv_row csv_type r = Ok c -> P c) ->
  (forall vobject vcards out,
     _import_vcard vobject vcards = Ok out -> Forall P out)
  /\ (forall (DictReader : string -> ascii -> list row) content csv_type out,
        _import_csv DictReader content csv_type = Ok out -> Forall P out).
Proof.
  intros Hv Hr. split.
  - intros vobject vcards out Hout.
    eapply Forall_impl; [by eapply import_vcard_records|].
    intros c (_ & v & _ & ->). apply Hv.
  - intros DictReader content csv_type out Hout.
    eapply Forall_impl; [by eapply import_csv_records|].
    intros c (_ & r & _ & Hc). by eapply Hr.
Qed.

(** X9: every phone of every record the vCard parser or a CSV parser
    returns has one of the types mobile, work and home. *)
Theorem parsed_phone_types :
  (forall vobject vcards out,
     _import_vcard vobject vcards = Ok out ->
     Forall (fun c => Forall (fun p => type p ∈ ["mobile"; "work"; "home"]) (phones c)) out)
  /\ (forall (DictReader : string -> ascii -> list row) content csv_type out,
        _import_csv DictReader content csv_type = Ok out ->
        Forall (fun c => Forall (fun p => type p ∈ ["mobile"; "work"; "home"]) (phones c)) out).
Proof.
  apply parsed_records_satisfy.
  - intros v. eapply Forall_impl; [apply vcard_phones_ok|]. by intros p [? _].
  - intros csv_type r c Hc. apply csv_row_invariants in Hc as (Hp & _).
    eapply Forall_impl; [exact Hp|]. by intros p [? _].
Qed.

(** X10: every phone number of every record the vCard parser or a CSV
    parser returns is normalized: it holds digits and plus signs only, and
    normalizing it again changes nothing. *)
Theorem parsed_phone_numbers :
  (forall vobject vcards out,
     _import_vcard vobject vcards = Ok out ->
     Forall (fun c => Forall (fun p => str_forall phone_char (number p) = true
                                       /\ _normalize_phone (number p) = number p)
                        (phones c)) out)
  /\ (forall (DictReader : string -> ascii -> list row) content csv_type out,
        _import_csv DictReader content csv_type = Ok out ->
        Forall (fun c => Forall (fun p => str_forall phone_char (number p) = true
                                          /\ _normalize_phone (number p) = number p)
                           (phones c)) out).
Proof.
  assert (Hok : forall p, phone_ok p ->
                  str_forall phone_char (number p) = true
                  /\ _normalize_phone (number p) = number p).
  { intros p [_ Hn]. split; [|done]. rewrite <- Hn.
    apply normalize_phone_settled. }
  apply parsed_records_satisfy.
  - intros v. eapply Forall_impl; [apply vcard_phones_ok|]. exact Hok.
  - intros csv_type r c Hc. apply csv_row_invariants in Hc as (Hp & _).
    eapply Forall_impl; [exact Hp|]. exact Hok.
Qed.

(** X11: every record the vCard parser or a CSV parser returns has the
    category Friend and no last contact. *)
Theorem parsed_constants :
  (forall vobject vcards out,
     _import_vcard vobject vcards = Ok out ->
     Forall (fun c => category c = "Friend" /\ lastContact c = None) out)
  /\ (forall (DictReader : string -> ascii -> list row) content csv_type out,
        _import_csv DictReader content csv_type = Ok out ->
        Forall (fun c => category c = "Friend" /\ lastContact c = None) out).
Proof.
  apply parsed_records_satisfy.
  - by intros v.
  - intros csv_type r c Hc. by apply csv_row_invariants in Hc as (_ & ? & ? & _).
Qed.

(** X12: a record of a CSV parser has at most five phones and three
    emails, at most three phones and one email unless the variant is
    google_csv, and at most one phone in the android and generic variants. *)
Theorem csv_record_bounds (DictReader : string -> ascii -> list row)
    (content csv_type : string) (out : list contact) :
  _import_csv DictReader content csv_type = Ok out ->
  Forall (fun c =>
    length (phones c) <= 5 /\ length (emails c) <= 3
    /\ (csv_type <> "google_csv" -> length (phones c) <= 3 /\ length (emails c) <= 1)
    /\ (csv_type <> "google_csv" -> csv_type <> "outlook_csv" -> length (phones c) <= 1))
    out.
Proof.
  intros Hout. eapply Forall_impl; [by eapply import_csv_records|].
  intros c (_ & r & _ & Hc). cbv beta.
  by apply csv_row_invariants in Hc as (_ & _ & _ & ? & ? & ? & ?).
Qed.

Lemma csv_record_bounds_witness :
  Forall (fun c =>
    length (phones c) <= 5 /\ length (emails c) <= 3
    /\ ("generic_csv" <> "google_csv" -> length (phones c) <= 3 /\ length (emails c) <= 1)
    /\ ("generic_csv" <> "google_csv" -> "generic_csv" <> "outlook_csv" -> length (phones c) <= 1))
    sample_generic_contacts.
Proof.
  apply (csv_record_bounds sample_reader "Name,First Name,Last Name,Phone" "generic_csv").
  vm_compute. reflexivity.
Defined.

(** ** The output as a whole *)

Lemma named_app (l1 l2 : list contact) : named (l1 ++ l2) = (named l1 ++ named l2)%list.
Proof. apply List.filter_app. Qed.

Lemma import_vcard_fold (vcards acc : list vcard) (out : list contact) :
  fold_left import_vcard_step vcards out
  = (out ++ named (vcard_contact <$> vcards))%list.
Proof.
  revert out. induction vcards as [|v vcards IH]; intros out; cbn [fold_left].
  - by rewrite app_nil_r.
  - rewrite IH. unfold import_vcard_step. cbv zeta.
    change (named (vcard_contact <$> v :: vcards))
      with (if truthy (name (vcard_contact v))
            then vcard_contact v :: named (vcard_contact <$> vcards)
            else named (vcard_contact <$> vcards)).
    destruct (truthy (name (vcard_contact v))); [|done].
    by rewrite <- app_assoc.
Qed.

(** X13: with the library at hand the vCard parser returns exactly the
    records of the components that have a name, in the order of the file,
    and it cannot fail; without the library it raises [ImportError]
    whatever the file holds. *)
Theorem import_vcard_named (vcards : list vcard) :
  _import_vcard true vcards = Ok (named (vcard_contact <$> vcards))
  /\ _import_vcard false vcards = Raise ImportError
  /\ (forall out, _import_vcard true vcards = Ok out -> length out <= length vcards).
Proof.
  assert (H : _import_vcard true vcards = Ok (named (vcard_contact <$> vcards))).
  { unfold _import_vcard. cbn [negb]. by rewrite (import_vcard_fold vcards []). }
  split; [exact H|]. split; [reflexivity|].
  intros out. rewrite H. intros [= <-]. unfold named.
  etrans; [apply List.filter_length_le|]. by rewrite length_fmap.
Qed.

Lemma import_csv_step_Ok (csv_type : string) (acc : list contact) (r : row) (c : contact) :
  parse_csv_row csv_type r = Ok c ->
  import_csv_step csv_type acc r
  = Ok (if truthy (name c) then (acc ++ [c])%list else acc).
Proof. intros H. unfold import_csv_step. rewrite H. cbn. by destruct (truthy (name c)). Qed.

Lemma import_csv_step_Raise (csv_type : string) (acc : list contact) (r : row) (e : exn) :
  parse_csv_row csv_type r = Raise e -> import_csv_step csv_type acc r = Raise e.
Proof. intros H. unfold import_csv_step. by rewrite H. Qed.

Lemma import_csv_loop (csv_type : string) (rows : list row) (acc out : list contact) :
  for_each (import_csv_step csv_type) rows acc = Ok out
  <-> exists cs, Forall2 (fun r c => parse_csv_row csv_type r = Ok c) rows cs
                 /\ out = (acc ++ named cs)%list.
Proof.
  revert acc out. induction rows as [|r rows IH]; intros acc out.
  - cbn. split.
    + intros [= <-]. exists []. split; [constructor|by rewrite app_nil_r].
    + intros (cs & Hcs & ->). apply Forall2_nil_inv_l in Hcs as ->.
      by rewrite app_nil_r.
  - cbn [for_each]. split.
    + intros (acc' & Hstep & Hrun)%bind_Ok. unfold import_csv_step in Hstep.
      apply bind_Ok in Hstep as (c & Hc & Hstep).
      apply IH in Hrun as (cs & Hcs & ->). exists (c :: cs).
      split; [by constructor|].
      change (named (c :: cs)) with (if truthy (name c) then c :: named cs else named cs).
      destruct (truthy (name c)); injection Hstep as <-; [|done].
      by rewrite <- app_assoc.
    + intros (cs & Hcs & ->). apply Forall2_cons_inv_l in Hcs as (c & cs' & Hc & Hcs & ->).
      rewrite (import_csv_step_Ok _ _ _ _ Hc). cbn.
      apply IH. exists cs'. split; [done|].
      change (named (c :: cs')) with (if truthy (name c) then c :: named cs' else named cs').
      destruct (truthy (name c)); [|done]. by rewrite <- app_assoc.
Qed.

(** X14: a CSV import succeeds exactly when every row of the file parses,
    and what it returns is then the parsed records that have a name, in the
    order of the rows. *)
Theorem import_csv_named (DictReader : string -> ascii -> list row)
    (content csv_type : string) (out : list contact) :
  _import_csv DictReader content csv_type = Ok out
  <-> exists cs,
        Forall2 (fun r c => parse_csv_row csv_type r = Ok c)
          (DictReader content (csv_delimiter content)) cs
        /\ out = named cs.
Proof. unfold _import_csv. cbv zeta. by rewrite import_csv_loop. Qed.

Lemma import_csv_loop_error (csv_type : string) (pre post : list row) (r : row)
    (acc : list contact) (e : exn) :
  Forall (fun r' => exists c, parse_csv_row csv_type r' = Ok c) pre ->
  parse_csv_row csv_type r = Raise e ->
  for_each (import_csv_step csv_type) (pre ++ r :: post) acc = Raise e.
Proof.
  intros Hpre Hr. revert acc. induction Hpre as [|r' pre [c Hc] _ IH]; intros acc.
  - cbn. by rewrite (import_csv_step_Raise _ _ _ _ Hr).
  - cbn. rewrite (import_csv_step_Ok _ _ _ _ Hc). cbn. apply IH.
Qed.

(** X15: the first row that fails to parse ends the CSV import with the
    exception of that row; the records of the rows before it are not
    returned. *)
Theorem import_csv_first_error (DictReader : string -> ascii -> list row)
    (content csv_type : string) (pre post : list row) (r : row) (e : exn) :
  DictReader content (csv_delimiter content) = (pre ++ r :: post)%list ->
  Forall (fun r' => exists c, parse_csv_row csv_type r' = Ok c) pre ->
  parse_csv_row csv_type r = Raise e ->
  _import_csv DictReader content csv_type = Raise e.
Proof.
  intros Hrows Hpre Hr. unfold _import_csv. cbv zeta. rewrite Hrows.
  by apply import_csv_loop_error.
Qed.

(** ** Rows that fail to parse *)

Lemma bind_Raise {A B : Type} (m : result A) (k : A -> result B) (e : exn) :
  m ≫= k = Raise e -> m = Raise e \/ exists a, m = Ok a /\ k a = Raise e.
Proof. destruct m as [a|e']; cbn; [by eauto|]. intros [= ->]. by left. Qed.

Lemma fmap_Raise {A B : Type} (f : A -> B) (m : result A) (e : exn) :
  f <$> m = Raise e -> m = Raise e.
Proof. destruct m as [a|e']; cbn; [discriminate|]. by intros [= ->]. Qed.

Lemma for_each_Raise {A B : Type} (body : B -> A -> result B)
    (l : list A) (acc : B) (e : exn) :
  for_each body l acc = Raise e -> exists acc' x, x ∈ l /\ body acc' x = Raise e.
Proof.
  revert acc. induction l as [|x l IH]; intros acc; cbn; [discriminate|].
  intros [H | (acc' & _ & H)]%bind_Raise.
  - exists acc, x. split; [left|done].
  - apply IH in H as (acc'' & y & Hy & H). exists acc'', y. split; [by right|done].
Qed.

Lemma as_str_Raise (r : row) (key dflt : string) (e : exn) :
  as_str (row_get r key (CStr dflt)) = Raise e ->
  e = AttributeError /\ exists key, r !! key = Some CNone.
Proof.
  unfold row_get. destruct (r !! key) as [[|s]|] eqn:Hkey; cbn; [|discriminate..].
  intros [= <-]. by eauto.
Qed.

Lemma as_str_nested_Raise (r : row) (a b dflt : string) (e : exn) :
  as_str (row_get r a (row_get r b (CStr dflt))) = Raise e ->
  e = AttributeError /\ exists key, r !! key = Some CNone.
Proof.
  unfold row_get. destruct (r !! a) as [[|s]|] eqn:Ha; cbn.
  - intros [= <-]. by eauto.
  - discriminate.
  - destruct (r !! b) as [[|s]|] eqn:Hb; cbn; [|discriminate..].
    intros [= <-]. by eauto.
Qed.

(** Taking a failed run of monadic code apart, down to the cell that is
    [None]. *)
Ltac inv_raise :=
  repeat match goal with
  | H : _ ≫= _ = Raise _ |- _ =>
      let a := fresh "a" in let Ha := fresh "Ha" in
      apply bind_Raise in H as [H | (a & Ha & H)]
  | H : _ <$> _ = Raise _ |- _ => apply fmap_Raise in H
  | H : Ok _ = Raise _ |- _ => discriminate H
  | H : (if ?b then _ else _) = Raise _ |- _ => destruct b eqn:?
  | H : for_each _ _ _ = Raise _ |- _ =>
      let acc := fresh "acc" in let x := fresh "x" in
      apply for_each_Raise in H as (acc & x & _ & H)
  | H : as_str (row_get _ _ (row_get _ _ (CStr _))) = Raise _ |- _ =>
      exact (as_str_nested_Raise _ _ _ _ _ H)
  | H : as_str (row_get _ _ (CStr _)) = Raise _ |- _ =>
      exact (as_str_Raise _ _ _ _ H)
  end.

Lemma parse_csv_row_Raise (csv_type : string) (r : row) (e : exn) :
  parse_csv_row csv_type r = Raise e ->
  e = AttributeError /\ exists key, r !! key = Some CNone.
Proof.
  unfold parse_csv_row. repeat case_decide.
  - unfold _parse_google_csv_row. intros Hrow. inv_raise.
    + unfold google_phone_step in Hrow. inv_raise.
    + unfold google_email_step in Hrow. inv_raise.
  - unfold _parse_outlook_csv_row. intros Hrow. inv_raise.
    unfold outlook_phone_step in Hrow. inv_raise.
  - unfold _parse_android_csv_row. intros Hrow. inv_raise.
  - unfold _parse_generic_csv_row. intros Hrow. inv_raise.
Qed.

(** X16: a row parser raises nothing but [AttributeError], and only on a
    row that has a [None] cell, a line shorter than the header; a row
    without such a cell always parses. *)
Theorem csv_rows_fail_on_none_only :
  (forall csv_type r e,
     parse_csv_row csv_type r = Raise e ->
     e = AttributeError /\ ~ row_complete r)
  /\ (forall csv_type r,
        row_complete r -> exists c, parse_csv_row csv_type r = Ok c).
Proof.
  assert (Hfail : forall csv_type r e,
            parse_csv_row csv_type r = Raise e ->
            e = AttributeError /\ ~ row_complete r).
  { intros csv_type r e (-> & key & Hkey)%parse_csv_row_Raise.
    split; [done|]. intros Hr. by apply (Hr key). }
  split; [exact Hfail|].
  intros csv_type r Hr. destruct (parse_csv_row csv_type r) as [c|e] eqn:Hc;
    [by eauto|]. by apply Hfail in Hc as [_ ?].
Qed.

Lemma csv_rows_fail_on_none_only_witness :
  parse_csv_row "android_csv" short_android_row = Raise AttributeError
  /\ ~ row_complete short_android_row.
Proof.
  assert (H : parse_csv_row "android_csv" short_android_row = Raise AttributeError)
    by (vm_compute; reflexivity).
  split; [exact H|].
  destruct csv_rows_fail_on_none_only as [Hfail _].
  exact (proj2 (Hfail _ _ _ H)).
Defined.

Lemma import_csv_first_error_witness :
  _import_csv (fun _ _ => [full_android_row; short_android_row; full_android_row])
    "Display Name,Phone" "android_csv"
  = Raise AttributeError.
Proof.
  apply (import_csv_first_error _ _ _ [full_android_row] [full_android_row]
           short_android_row).
  - reflexivity.
  - apply Forall_singleton. eexists. vm_compute. reflexivity.
  - vm_compute. reflexivity.
Defined.

Lemma import_csv_named_witness :
  _import_csv sample_reader "Name,First Name,Last Name,Phone" "generic_csv"
  = Ok sample_generic_contacts.
Proof.
  apply import_csv_named.
  exists [ mk_contact (CStr "Ada Lovelace") [mk_phone "mobile" "+15551234567" true]
             [] None "Friend" None (CStr "");
           mk_contact (CStr "") [mk_phone "mobile" "+15550001111" true]
             [] None "Friend" None (CStr "");
           mk_contact (CStr "Grace Hopper") [mk_phone "mobile" "+15551234567" true]
             [] None "Friend" None (CStr "") ].
  split; [|reflexivity].
  repeat constructor; vm_compute; reflexivity.
Defined.

Lemma parsed_phone_types_witness :
  Forall (fun c => Forall (fun p => type p ∈ ["mobile"; "work"; "home"]) (phones c))
    [sample_vcard_contact].
Proof.
  destruct parsed_phone_types as [H _].
  apply (H true [sample_vcard]). vm_compute. reflexivity.
Defined.

Lemma parsed_phone_numbers_witness :
  Forall (fun c => Forall (fun p => str_forall phone_char (number p) = true
                                    /\ _normalize_phone (number p) = number p)
                     (phones c))
    [sample_vcard_contact].
Proof.
  destruct parsed_phone_numbers as [H _].
  apply (H true [sample_vcard]). vm_compute. reflexivity.
Defined.

Lemma parsed_constants_witness :
  Forall (fun c => category c = "Friend" /\ lastContact c = None)
    sample_generic_contacts.
Proof.
  destruct parsed_constants as [_ H].
  apply (H sample_reader "Name,First Name,Last Name,Phone" "generic_csv").
  vm_compute. reflexivity.
Defined.

Lemma import_vcard_named_witness :
  _import_vcard true [sample_vcard; mk_vcard None None [] [] None None]
  = Ok [sample_vcard_contact].
Proof.
  destruct (import_vcard_named [sample_vcard; mk_vcard None None [] [] None None])
    as [H _].
  rewrite H. vm_compute. reflexivity.
Defined.

(** ** Runs of the command *)

Section MainProperties.
Variable vobject : bool.
Variable readComponents : string -> result (list vcard).
Variable DictReader : string -> ascii -> list row.
Variable json_load : string -> option pyval.
Variable json_dump : pyval -> string.
Variable suffix_of : string -> string.
Variable mkdir_ok : bool.
Variable output_file : string.
Variable now : string.

Local Abbreviation run :=
  (main vobject readComponents DictReader json_load json_dump suffix_of
     mkdir_ok output_file now).
Local Abbreviation import :=
  (import_file vobject readComponents DictReader json_load).

Lemma export_imported_envelope (i : imported) (fs : gmap string string) :
  export_imported json_dump output_file now i fs
  = <[output_file := json_dump (PDict [ ("version", PStr "1.0");
                                        ("imported_at", PStr now);
                                        ("contacts", imported_value i) ])]> fs.
Proof. unfold export_imported. by destruct (imported_value i). Qed.

(** X17: no run changes a file other than the output file; a run that
    [parse_args] ends, and every dry run, changes no file at all; and when
    the input file does not exist, the output directory cannot be made,
    the import raises, or the import returns no contacts, the run ends with
    an exit code that is not 0 and leaves all files as they were. *)
Theorem main_leaves_files (p : parsed) (fs fs' : gmap string string) (code : nat) :
  run p fs code fs' ->
  (forall path, path <> output_file -> fs' !! path = fs !! path)
  /\ (forall c, p = Exited c -> code = c /\ fs' = fs)
  /\ (forall args, p = Parsed args -> arg_dry_run args = true -> fs' = fs)
  /\ (forall args, p = Parsed args -> fs !! arg_file args = None ->
        code <> 0 /\ fs' = fs)
  /\ (forall args, p = Parsed args -> mkdir_ok = false -> code <> 0 /\ fs' = fs)
  /\ (forall args content e,
        p = Parsed args -> fs !! arg_file args = Some content ->
        import (arg_file args) (suffix_of (arg_file args)) content (arg_format args)
          = Raise e ->
        code <> 0 /\ fs' = fs)
  /\ (forall args content contacts,
        p = Parsed args -> fs !! arg_file args = Some content ->
        import (arg_file args) (suffix_of (arg_file args)) content (arg_format args)
          = Ok contacts ->
        imported_truthy contacts = false ->
        code <> 0 /\ fs' = fs).
Proof.
  intros Hrun. split.
  { intros path Hpath. destruct Hrun; try done.
    - by rewrite lookup_insert_ne.
    - rewrite export_imported_envelope. by rewrite lookup_insert_ne. }
  split. { intros c ->. by inversion Hrun. }
  split. { intros args -> Hdry. inversion Hrun; subst; try done; congruence. }
  split. { intros args -> Hnone. inversion Hrun; subst; try done; congruence. }
  split. { intros args -> Hmk. inversion Hrun; subst; try done; congruence. }
  split.
  { intros args content e -> Hfile Himp.
    inversion Hrun; subst; try done; congruence. }
  intros args content contacts -> Hfile Himp Hnone.
  inversion Hrun; subst; try done; congruence.
Qed.

(** X18: a run that is not a dry run and ends with exit code 0 has read
    and imported the input file, found contacts in it, and written one
    file: the output file, which now holds the envelope [version],
    [imported_at], [contacts] around what was imported. *)
Theorem main_writes_envelope (fs fs' : gmap string string) (args : cli_args) :
  arg_dry_run args = false ->
  run (Parsed args) fs 0 fs' ->
  exists content contacts,
    fs !! arg_file args = Some content
    /\ import (arg_file args) (suffix_of (arg_file args)) content (arg_format args)
       = Ok contacts
    /\ imported_truthy contacts = true
    /\ fs' = <[output_file := json_dump (PDict [ ("version", PStr "1.0");
                                                 ("imported_at", PStr now);
                                                 ("contacts", imported_value contacts) ])]> fs
    /\ fs' !! output_file
       = Some (json_dump (PDict [ ("version", PStr "1.0");
                                  ("imported_at", PStr now);
                                  ("contacts", imported_value contacts) ])).
Proof.
  intros Hdry Hrun. inversion Hrun; subst; try done; try congruence.
  rewrite export_imported_envelope.
  exists content, contacts. repeat split; try done. by rewrite lookup_insert_eq.
Qed.
End MainProperties.

Lemma main_leaves_files_witness :
  main true (fun _ => Ok [sample_vcard]) sample_reader (fun _ => None)
    (fun _ => "{}") (fun _ => ".vcf") true "imports/out.json" "2024-03-15T10:00:00"
    (Parsed (mk_args "in.vcf" None true))
    {[ "in.vcf" := "BEGIN:VCARD" ]} 0 {[ "in.vcf" := "BEGIN:VCARD" ]}
  /\ (forall path, path <> "imports/out.json" ->
        ({[ "in.vcf" := "BEGIN:VCARD" ]} : gmap string string) !! path
        = ({[ "in.vcf" := "BEGIN:VCARD" ]} : gmap string string) !! path).
Proof.
  assert (Hrun : main true (fun _ => Ok [sample_vcard]) sample_reader (fun _ => None)
            (fun _ => "{}") (fun _ => ".vcf") true "imports/out.json"
            "2024-03-15T10:00:00" (Parsed (mk_args "in.vcf" None true))
            {[ "in.vcf" := "BEGIN:VCARD" ]} 0 {[ "in.vcf" := "BEGIN:VCARD" ]}).
  { eapply (main_dry_run _ _ _ _ _ _ _ _ _ _ _ "BEGIN:VCARD" (Records [sample_vcard_contact]));
      reflexivity. }
  split; [exact Hrun|].
  exact (proj1 (main_leaves_files _ _ _ _ _ _ _ _ _ _ _ _ _ Hrun)).
Defined.

Lemma main_writes_envelope_witness :
  exists content contacts,
    ({[ "in.vcf" := "BEGIN:VCARD" ]} : gmap string string) !! "in.vcf" = Some content
    /\ import_file true (fun _ => Ok [sample_vcard]) sample_reader (fun _ => None)
         "in.vcf" ".vcf" content None = Ok contacts
    /\ imported_truthy contacts = true.
Proof.
  destruct (main_writes_envelope true (fun _ => Ok [sample_vcard]) sample_reader
              (fun _ => None) (fun _ => "{}") (fun _ => ".vcf") true
              "imports/out.json" "2024-03-15T10:00:00"
              {[ "in.vcf" := "BEGIN:VCARD" ]}
              (export_imported (fun _ => "{}") "imports/out.json" "2024-03-15T10:00:00"
                 (Records [sample_vcard_contact]) {[ "in.vcf" := "BEGIN:VCARD" ]})
              (mk_args "in.vcf" None false) eq_refl)
    as (content & contacts & H1 & H2 & H3 & _).
  - eapply (main_done _ _ _ _ _ _ _ _ _ _ _ "BEGIN:VCARD" (Records [sample_vcard_contact]));
      reflexivity.
  - exists content, contacts. by repeat split.
Defined.

(** ** Letter case *)

Lemma lower_char_idem (c : ascii) : lower_char (lower_char c) = lower_char c.
Proof. destruct c as [[] [] [] [] [] [] [] []]; reflexivity. Qed.

Lemma lower_idem (s : string) : lower (lower s) = lower s.
Proof.
  induction s as [|c r IH]; [done|]. cbn [lower str_map].
  fold (lower r). fold (lower (lower r)). by rewrite lower_char_idem, IH.
Qed.

Lemma lower_char_newline (c : ascii) :
  lower_char c = newline <-> c = newline.
Proof.
  destruct c as [[] [] [] [] [] [] [] []]; split; intros H;
    try reflexivity; try (vm_compute in H; discriminate H).
Qed.

Lemma readline_lower (s : string) : readline (lower s) = lower (readline s).
Proof.
  induction s as [|c r IH]; [done|]. cbn [lower str_map readline].
  fold (lower r). destruct (decide (c = newline)) as [->|Hc].
  - reflexivity.
  - destruct (decide (lower_char c = newline)) as [Hl|_].
    + apply (proj1 (lower_char_newline c)) in Hl. contradiction.
    + cbn [lower str_map]. by rewrite IH.
Qed.

(** X19: the phone-type normalizer ignores letter case: a label and its
    lower-cased form get the same type. *)
Theorem normalize_phone_type_case (phone_type : string) :
  _normalize_phone_type (lower phone_type) = _normalize_phone_type phone_type.
Proof. unfold _normalize_phone_type. cbv zeta. by rewrite lower_idem. Qed.

(** X20: the detection of the CSV variant ignores the letter case of the
    file: a file and its lower-cased text are classified alike. *)
Theorem detect_csv_format_case (content : string) :
  _detect_csv_format (lower content) = _detect_csv_format content.
Proof.
  unfold _detect_csv_format. cbv zeta.
  by rewrite readline_lower, <- !lower_strip, lower_idem.
Qed.

(** ** A vCard whose formatted name is empty *)

(** X21: the formatted name wins over the structured one even when it
    is empty: a component with an empty FN is dropped, whatever its N
    property says. *)
Theorem vcard_empty_fn_dropped (v : vcard) (contacts : list contact) :
  fn v = Some "" ->
  name (vcard_contact v) = CStr ""
  /\ import_vcard_step contacts v = contacts.
Proof.
  intros Hfn.
  assert (Hname : name (vcard_contact v) = CStr "").
  { cbn. by rewrite Hfn. }
  split; [exact Hname|]. unfold import_vcard_step. cbv zeta. by rewrite Hname.
Qed.

Lemma vcard_empty_fn_dropped_witness :
  _import_vcard true [mk_vcard (Some "") (Some ("Ada", "Lovelace")) [] [] None None]
  = Ok [].
Proof.
  unfold _import_vcard. cbn [negb fold_left].
  by destruct (vcard_empty_fn_dropped
                 (mk_vcard (Some "") (Some ("Ada", "Lovelace")) [] [] None None)
                 [] eq_refl) as [_ ->].
Defined.
